(** * apitest: a declarative test harness for HTTP handlers

    Shallow embedding of [backend/library/go-api/apitest/apitest.go]:
    the request harness [MakeHandlerRequest], the per-case runner
    [RunHandlerTest] and the suite loop [RunHandlerTests].

    Conventions of the embedding.
    - Go's [int] status codes are [Z]; [[]byte] bodies and Go strings are
      [string].
    - The handler, the hooks and the assertion functions are callbacks
      supplied by the test author.  They may touch state shared between
      them (a data store, fixtures): that state is the type [World], threaded
      through every call.  They are taken to return normally.
    - [*testing.T] is a log of events: every assertion the runner evaluates
      and every call it makes (a hook, the harness, an assertion function)
      appends one event.  A callback reports its own failures through the
      [list string] it returns.
    - [ioutil.ReadAll] and [json.Unmarshal] are library functions outside
      the repository; they are section variables. *)

From stdpp Require Import gmap strings list pretty.
From Stdlib Require Import QArith Permutation.

Local Open Scope Z_scope.

(** ** Data model *)

(** A value decoded by [encoding/json] into [interface{}].  [JNil] is Go's
    [nil]: the decoding of JSON [null], and also what a map lookup yields
    for an absent key.  JSON numbers decode to [float64]; every finite
    [float64] is a rational. *)
Unset Elimination Schemes.
Inductive JValue : Type :=
| JNil
| JBool (b : bool)
| JNumber (x : Q)
| JString (s : string)
| JArray (l : list JValue)
| JObject (m : list (string * JValue)).
Set Elimination Schemes.

(** [http.Request] as built by [httptest.NewRequest method target body]. *)
Record Request : Type := NewRequest {
  ReqMethod : string;
  ReqURL : string;
  ReqBody : string
}.

(** [httptest.ResponseRecorder]: the status code, the headers and the
    buffered body the handler wrote. *)
Record ResponseRecorder : Type := {
  Code : Z;
  HeaderMap : list (string * list string);
  RecBody : string
}.

(** [httptest.NewRecorder()] starts at status 200 with an empty buffer. *)
Definition NewRecorder : ResponseRecorder :=
  {| Code := 200; HeaderMap := []; RecBody := EmptyString |}.

(** [http.Response] as far as the harness reads it.  [Body] stands for the
    [io.ReadCloser] over the recorded bytes. *)
Record Response : Type := {
  StatusCode : Z;
  Header : list (string * list string);
  Body : string
}.

(** [w.Result()]: a snapshot of the recorder.  The recorder is created with
    code 200 and [WriteHeader] only accepts codes in 100..999, so the
    snapshot's status is the recorder's code. *)
Definition Result (w : ResponseRecorder) : Response :=
  {| StatusCode := Code w; Header := HeaderMap w; Body := RecBody w |}.

(** Modelled from the spec: [api.Error] of the sibling package [go-api],
    "a JSON object with an integer field code and a string field message".
    The conversion [int(errH.Code)] is the identity on [Z]. *)
Record ApiError : Type := {
  ErrCode : Z;
  Message : string
}.

(** The four hooks of a run. *)
Inductive HookId : Type :=
| HBeforeTest   (* TestSuite.BeforeTestFunc *)
| HBeforeRun    (* HandlerTest.BeforeRunFunc *)
| HAfterRun     (* HandlerTest.AfterRunFunc *)
| HAfterTest.   (* TestSuite.AfterTestFunc *)

(** What a run leaves on [*testing.T], in program order. *)
Inductive Event : Type :=
| HookCalled (h : HookId) (reported : list string)
| HarnessCalled (method route content : string) (accepted : list Z)
| AssertNoError (err : option string)
| AssertEqualStatus (expected actual : Z)
| AssertEqualContent (expected actual : string)
| TError (msg : string)
| AssertEqualCode (expected actual : Z)
| AssertNotEmptyMessage (msg : string)
| AssertContainsMessage (msg substr : string)
| AssertFuncCalled (k : string) (v : JValue) (reported : list string).

Section Types.
Variable World : Type.

(** [func(t *testing.T)]: a hook.  It may change the world and report
    failures. *)
Definition TestFunc : Type := World -> World * list string.

(** [type AssertFunc func(t *testing.T, v interface{})]. *)
Definition AssertFunc : Type := JValue -> World -> World * list string.

(** [http.HandlerFunc]: writes into the recorder it is given. *)
Definition HandlerFunction : Type :=
  ResponseRecorder -> Request -> World -> World * ResponseRecorder.

Record TestSuite : Type := {
  Route : string;
  Method : string;
  HandlerFunc : HandlerFunction;
  AfterTestFunc : option TestFunc;
  BeforeTestFunc : option TestFunc
}.

(** [AssertContentFields] is a Go map: [None] is the nil map; otherwise
    the list holds the entries in the order in which this run's [range]
    visits them (Go leaves that order unspecified). *)
Record HandlerTest : Type := {
  Name : string;
  Content : string;
  WantStatusCode : Z;
  WantContent : string;
  WantErr : bool;
  WantErrMessage : string;
  AssertContentFields : option (list (string * AssertFunc));
  BeforeRunFunc : option TestFunc;
  AfterRunFunc : option TestFunc;
  SkipBeforeTestFunc : bool;
  SkipAfterTestFunc : bool
}.

Record HandlerReqParams : Type := {
  PRoute : string;
  PMethod : string;
  PHandlerFunc : HandlerFunction
}.
End Types.

Arguments Route {World}.
Arguments Method {World}.
Arguments HandlerFunc {World}.
Arguments AfterTestFunc {World}.
Arguments BeforeTestFunc {World}.
Arguments Name {World}.
Arguments Content {World}.
Arguments WantStatusCode {World}.
Arguments WantContent {World}.
Arguments WantErr {World}.
Arguments WantErrMessage {World}.
Arguments AssertContentFields {World}.
Arguments BeforeRunFunc {World}.
Arguments AfterRunFunc {World}.
Arguments SkipBeforeTestFunc {World}.
Arguments SkipAfterTestFunc {World}.
Arguments PRoute {World}.
Arguments PMethod {World}.
Arguments PHandlerFunc {World}.

(** ** Library functions the runner relies on *)

(** [strings.HasPrefix]. *)
Fixpoint HasPrefix (s pre : string) {struct pre} : bool :=
  match pre, s with
  | EmptyString, _ => true
  | String _ _, EmptyString => false
  | String a pre', String b s' => if Ascii.eqb a b then HasPrefix s' pre' else false
  end.

(** [strings.Contains], the test behind [assert.Contains] on two strings. *)
Fixpoint Contains (s substr : string) : bool :=
  HasPrefix s substr ||
  match s with
  | EmptyString => false
  | String _ s' => Contains s' substr
  end.

(** Is the Go string empty? *)
Definition is_empty (s : string) : bool :=
  match s with EmptyString => true | String _ _ => false end.

(** testify's [isEmpty] on a decoded value: [nil], the zero value of a
    scalar, or a collection of length 0. *)
Definition isEmpty (v : JValue) : bool :=
  match v with
  | JNil => true
  | JBool b => negb b
  | JNumber x => Qeq_bool x 0
  | JString s => is_empty s
  | JArray l => match l with [] => true | _ => false end
  | JObject m => match m with [] => true | _ => false end
  end.

(** Outcome of one event: [true] when it records no failure. *)
Definition passes (e : Event) : bool :=
  match e with
  | HookCalled _ reported => match reported with [] => true | _ => false end
  | HarnessCalled _ _ _ _ => true
  | AssertNoError err => match err with None => true | Some _ => false end
  | AssertEqualStatus expected actual => Z.eqb expected actual
  | AssertEqualContent expected actual => String.eqb expected actual
  | TError _ => false
  | AssertEqualCode expected actual => Z.eqb expected actual
  | AssertNotEmptyMessage msg => negb (is_empty msg)
  | AssertContainsMessage msg substr => Contains msg substr
  | AssertFuncCalled _ _ reported => match reported with [] => true | _ => false end
  end.

(** [t.Failed()] at the end of a run. *)
Definition Failed (log : list Event) : bool :=
  existsb (fun e => negb (passes e)) log.

(** The two messages the code formats itself. *)
Definition newline : string := String (Ascii.ascii_of_nat 10) EmptyString.

Definition unaccepted_status_error (route : string) (code : Z) (body : string) : string :=
  "apitest: handler request to " +:+ route +:+ " resulted in a unaccepteable "
    +:+ pretty code +:+ " status:" +:+ newline +:+ body.

Definition missing_key_error (k : string) : string :=
  "the key '" +:+ k +:+
  "' does not exist in the response but an AssertFunc for it was specified".

(** ** The test monad

    A computation runs in a world, returns a value, leaves a world and
    appends events to the log of [*testing.T]. *)
Definition Test (World A : Type) : Type := World -> A * World * list Event.

Section Monad.
Context {World : Type}.

Definition result {A} (r : A * World * list Event) : A := r.1.1.
Definition world {A} (r : A * World * list Event) : World := r.1.2.
Definition trace {A} (r : A * World * list Event) : list Event := r.2.

#[export] Instance test_ret : MRet (Test World) :=
  fun A a σ => (a, σ, []).

#[export] Instance test_bind : MBind (Test World) :=
  fun A B k c σ =>
    let '(a, σ1, l1) := c σ in
    let '(b, σ2, l2) := k a σ1 in
    (b, σ2, l1 ++ l2).

(** One assertion of testify, or one [t.Error]: append its event. *)
Definition report (e : Event) : Test World () :=
  fun σ => ((), σ, [e]).

(** [if b { c }]. *)
Definition when (b : bool) (c : Test World ()) : Test World () :=
  if b then c else mret ().

(** [if f != nil && run { f(t) }]. *)
Definition call_hook (h : HookId) (f : option (TestFunc World)) (run : bool)
  : Test World () :=
  match f with
  | Some f =>
      when run (fun σ => let '(σ', reported) := f σ in ((), σ', [HookCalled h reported]))
  | None => mret ()
  end.

(** [assertFunc(t, v)] for the field [k]. *)
Definition call_assert (k : string) (assertFunc : AssertFunc World) (v : JValue)
  : Test World () :=
  fun σ => let '(σ', reported) := assertFunc v σ in
           ((), σ', [AssertFuncCalled k v reported]).

(** [for _, x := range xs { body x }]. *)
Fixpoint for_each {A} (xs : list A) (body : A -> Test World ()) : Test World () :=
  match xs with
  | [] => mret ()
  | x :: xs' => body x;; for_each xs' body
  end.
End Monad.

(** ** The assertion functions shipped with the package *)

(** [AssertNotEmptyFunc]: [assert.NotEmpty(t, v)]. *)
Definition AssertNotEmptyFunc {World} : AssertFunc World :=
  fun v σ => (σ, if isEmpty v then ["Should NOT be empty"] else []).

(** ** The harness and the runner *)

Section Apitest.
Context {World : Type}.

(** [ioutil.ReadAll(resp.Body)]: the bytes read and the error, if any. *)
Variable ReadAll : string -> string * option string.

(** [json.Unmarshal(body, &errH)] on a zero [api.Error]: what the decoder
    left in [errH], and its error. *)
Variable Unmarshal_Error : string -> ApiError * option string.

(** [json.Unmarshal(body, &rJSON)] on an empty [map[string]interface{}]:
    what the decoder left in the map, and its error. *)
Variable Unmarshal_map : string -> gmap string JValue * option string.

(** [statusMap[status] = true] for every accepted status. *)
Definition statusMap_of (acceptedStatusCodes : list Z) : gmap Z bool :=
  fold_left (fun statusMap status => <[status := true]> statusMap)
            acceptedStatusCodes ∅.

Definition MakeHandlerRequest (p : HandlerReqParams World) (content : string)
    (acceptedStatusCodes : list Z) (σ : World)
  : (Response * string * option string) * World :=
  let r := NewRequest (PMethod p) (PRoute p) content in
  let w := NewRecorder in
  let '(σ', w) := PHandlerFunc p w r σ in
  let resp := Result w in
  let '(body, err) := ReadAll (Body resp) in
  match err with
  | Some e => ((resp, body, Some e), σ')
  | None =>
      if (0 <? length acceptedStatusCodes)%nat then
        let statusMap := statusMap_of acceptedStatusCodes in
        match statusMap !! Code w with
        | Some true => ((resp, body, None), σ')
        | _ => ((resp, body,
                 Some (unaccepted_status_error (PRoute p) (Code w) body)), σ')
        end
      else ((resp, body, None), σ')
  end.

(** The call of the harness from a test: it leaves one event. *)
Definition harness (p : HandlerReqParams World) (content : string)
    (acceptedStatusCodes : list Z)
  : Test World (Response * string * option string) :=
  fun σ =>
    let '(out, σ') := MakeHandlerRequest p content acceptedStatusCodes σ in
    (out, σ', [HarnessCalled (PMethod p) (PRoute p) content acceptedStatusCodes]).

Definition RunHandlerTest (ts : TestSuite World) (ht : HandlerTest World)
  : Test World () :=
  call_hook HBeforeTest (BeforeTestFunc ts) (negb (SkipBeforeTestFunc ht));;
  call_hook HBeforeRun (BeforeRunFunc ht) true;;
  let hreq := {| PRoute := Route ts; PMethod := Method ts;
                 PHandlerFunc := HandlerFunc ts |} in
  '(resp, body, err) ← harness hreq (Content ht) [WantStatusCode ht];
  report (AssertNoError err);;
  report (AssertEqualStatus (WantStatusCode ht) (StatusCode resp));;
  when (negb (is_empty (WantContent ht)))
    (report (AssertEqualContent (WantContent ht) body));;
  when (negb (is_empty (WantErrMessage ht)) || WantErr ht)
    (let '(errH, err) := Unmarshal_Error body in
     match err with Some e => report (TError e) | None => mret () end;;
     report (AssertEqualCode (WantStatusCode ht) (ErrCode errH));;
     when (WantErr ht) (report (AssertNotEmptyMessage (Message errH)));;
     when (negb (is_empty (WantErrMessage ht)))
       (report (AssertContainsMessage (Message errH) (WantErrMessage ht))));;
  match AssertContentFields ht with
  | Some fields =>
      let '(rJSON, err) := Unmarshal_map body in
      match err with Some e => report (TError e) | None => mret () end;;
      for_each fields (fun '(k, assertFunc) =>
        let v := rJSON !! k in
        when (bool_decide (v = None)) (report (TError (missing_key_error k)));;
        call_assert k assertFunc (default JNil v))
  | None => mret ()
  end;;
  call_hook HAfterRun (AfterRunFunc ht) true;;
  call_hook HAfterTest (AfterTestFunc ts) (negb (SkipAfterTestFunc ht)).

(** [RunHandlerTests]: one sub-test per case, named by the case, each with
    its own log; the world is handed from one case to the next. *)
Fixpoint RunHandlerTests (ts : TestSuite World) (tests : list (HandlerTest World))
    (σ : World) : list (string * list Event) * World :=
  match tests with
  | [] => ([], σ)
  | ht :: tests' =>
      let r := RunHandlerTest ts ht σ in
      let '(logs, σ') := RunHandlerTests ts tests' (world r) in
      ((Name ht, trace r) :: logs, σ')
  end.

(** *** Observations on a run

    Names for the intermediate values of [RunHandlerTest], so that the
    properties below can speak about the response a run obtained. *)

(** The two hooks that run before the request. *)
Definition before_hooks (ts : TestSuite World) (ht : HandlerTest World)
  : Test World () :=
  call_hook HBeforeTest (BeforeTestFunc ts) (negb (SkipBeforeTestFunc ht));;
  call_hook HBeforeRun (BeforeRunFunc ht) true.

(** The two hooks that run after the checks. *)
Definition after_hooks (ts : TestSuite World) (ht : HandlerTest World)
  : Test World () :=
  call_hook HAfterRun (AfterRunFunc ht) true;;
  call_hook HAfterTest (AfterTestFunc ts) (negb (SkipAfterTestFunc ht)).

(** What the handler leaves when the harness calls it: the world and the
    recorder it wrote into (lines 165-170). *)
Definition handler_output (p : HandlerReqParams World) (content : string)
    (σ : World) : World * ResponseRecorder :=
  PHandlerFunc p NewRecorder (NewRequest (PMethod p) (PRoute p) content) σ.

(** What [MakeHandlerRequest] returns to the run started in [σ]. *)
Definition harness_output (ts : TestSuite World) (ht : HandlerTest World)
    (σ : World) : (Response * string * option string) * World :=
  MakeHandlerRequest
    {| PRoute := Route ts; PMethod := Method ts; PHandlerFunc := HandlerFunc ts |}
    (Content ht) [WantStatusCode ht] (world (before_hooks ts ht σ)).

(** The recorder the handler wrote into. *)
Definition recorded (p : HandlerReqParams World) (content : string) (σ : World)
  : ResponseRecorder := (handler_output p content σ).2.

Definition got_resp ts ht σ : Response := (harness_output ts ht σ).1.1.1.
Definition got_body ts ht σ : string := (harness_output ts ht σ).1.1.2.
Definition got_err ts ht σ : option string := (harness_output ts ht σ).1.2.
Definition world_after_request ts ht σ : World := (harness_output ts ht σ).2.

(** Is the structured-error branch (lines 81-97) entered? *)
Definition error_checks_triggered (ht : HandlerTest World) : bool :=
  negb (is_empty (WantErrMessage ht)) || WantErr ht.

(** The events of [if tt.WantContent != ...]. *)
Definition content_checks (ht : HandlerTest World) (body : string) : list Event :=
  if negb (is_empty (WantContent ht))
  then [AssertEqualContent (WantContent ht) body] else [].

(** The events of the structured-error branch. *)
Definition error_checks (ht : HandlerTest World) (body : string) : list Event :=
  if error_checks_triggered ht then
    match (Unmarshal_Error body).2 with Some e => [TError e] | None => [] end
    ++ [AssertEqualCode (WantStatusCode ht) (ErrCode (Unmarshal_Error body).1)]
    ++ (if WantErr ht
        then [AssertNotEmptyMessage (Message (Unmarshal_Error body).1)] else [])
    ++ (if negb (is_empty (WantErrMessage ht))
        then [AssertContainsMessage (Message (Unmarshal_Error body).1)
                                    (WantErrMessage ht)] else [])
  else [].

(** The loop over the configured fields. *)
Definition field_loop (rJSON : gmap string JValue)
    (fields : list (string * AssertFunc World)) : Test World () :=
  for_each fields (fun '(k, assertFunc) =>
    let v := rJSON !! k in
    when (bool_decide (v = None)) (report (TError (missing_key_error k)));;
    call_assert k assertFunc (default JNil v)).

(** The field-assertion block (lines 100-115). *)
Definition field_checks (ht : HandlerTest World) (body : string) : Test World () :=
  match AssertContentFields ht with
  | Some fields =>
      match (Unmarshal_map body).2 with
      | Some e => report (TError e)
      | None => mret ()
      end;;
      field_loop (Unmarshal_map body).1 fields
  | None => mret ()
  end.
End Apitest.

(** The events one field leaves when its assertion function does not change
    the world [σ]. *)
Definition field_events {World} (rJSON : gmap string JValue) (σ : World)
    (entry : string * AssertFunc World) : list Event :=
  let v := rJSON !! entry.1 in
  (if bool_decide (v = None) then [TError (missing_key_error entry.1)] else [])
  ++ [AssertFuncCalled entry.1 (default JNil v) (entry.2 (default JNil v) σ).2].

(** ** The run as a sequence of steps *)

(** The steps of the runner's state machine, in the specification's order. *)
Inductive Step : Type :=
| SuiteBeforeHook
| CaseBeforeHook
| InvokeHarness
| ValidatorCheck
| CaseAfterHook
| SuiteAfterHook.

(** The step an event belongs to. *)
Definition step_of (e : Event) : Step :=
  match e with
  | HookCalled HBeforeTest _ => SuiteBeforeHook
  | HookCalled HBeforeRun _ => CaseBeforeHook
  | HookCalled HAfterRun _ => CaseAfterHook
  | HookCalled HAfterTest _ => SuiteAfterHook
  | HarnessCalled _ _ _ _ => InvokeHarness
  | _ => ValidatorCheck
  end.

Definition configured {A} (f : option A) : bool :=
  match f with Some _ => true | None => false end.

(** A step that is taken only under a condition. *)
Definition optional_step (b : bool) (s : Step) : list Step :=
  if b then [s] else [].

(** The sequence the specification prescribes for one case, with [n]
    validator checks. *)
Definition spec_sequence {World} (ts : TestSuite World) (ht : HandlerTest World)
    (n : nat) : list Step :=
  optional_step (configured (BeforeTestFunc ts) && negb (SkipBeforeTestFunc ht))
                SuiteBeforeHook
  ++ optional_step (configured (BeforeRunFunc ht)) CaseBeforeHook
  ++ [InvokeHarness]
  ++ replicate n ValidatorCheck
  ++ optional_step (configured (AfterRunFunc ht)) CaseAfterHook
  ++ optional_step (configured (AfterTestFunc ts) && negb (SkipAfterTestFunc ht))
                   SuiteAfterHook.

(** ** Two readings of the specification, as predicates on a log *)

(** "The assertion function for a field is invoked only when that field
    name is present in the decoded response-body mapping." *)
Definition asserted_only_when_present (rJSON : gmap string JValue)
    (log : list Event) : Prop :=
  forall k v reported, AssertFuncCalled k v reported ∈ log -> is_Some (rJSON !! k).

(** "The remaining checks of that validation branch (code equality, message
    non-emptiness, substring containment) are not executed." *)
Definition error_branch_aborted (log : list Event) : Prop :=
  forall e, e ∈ log ->
    match e with
    | AssertEqualCode _ _ | AssertNotEmptyMessage _ | AssertContainsMessage _ _ =>
        False
    | _ => True
    end.

(** ** Purity of the callbacks *)

(** A callback is pure when it leaves the world as it found it. *)
Definition pure_func {World} (f : TestFunc World) : Prop :=
  forall σ, (f σ).1 = σ.

Definition pure_hook {World} (f : option (TestFunc World)) : Prop :=
  forall g, f = Some g -> pure_func g.

Definition pure_handler {World} (h : HandlerFunction World) : Prop :=
  forall w r σ, (h w r σ).1 = σ.

Definition pure_fields {World} (fields : list (string * AssertFunc World)) : Prop :=
  forall k f, In (k, f) fields -> forall v, pure_func (f v).

Definition pure_suite {World} (ts : TestSuite World) : Prop :=
  pure_handler (HandlerFunc ts)
  /\ pure_hook (BeforeTestFunc ts) /\ pure_hook (AfterTestFunc ts).

Definition pure_case {World} (ht : HandlerTest World) : Prop :=
  pure_hook (BeforeRunFunc ht) /\ pure_hook (AfterRunFunc ht)
  /\ forall fields, AssertContentFields ht = Some fields -> pure_fields fields.



(** ** Sample suites

    Concrete handlers, decoders and cases on which the properties are
    evaluated.  The world is a counter of hook calls. *)

(** A handler that answers [code] with [body]: [w.WriteHeader(code)] then
    [w.Write(body)]. *)
Definition respond {World} (code : Z) (body : string) : HandlerFunction World :=
  fun w _ σ =>
    (σ, {| Code := code; HeaderMap := HeaderMap w; RecBody := RecBody w +:+ body |}).

(** Reading the recorder's in-memory buffer never fails. *)
Definition buffer_ReadAll (b : string) : string * option string := (b, None).

Definition quote : string := String (Ascii.ascii_of_nat 34) EmptyString.

(** The body [{"id":"abc","name":"x"}]. *)
Definition created_body : string :=
  "{" +:+ quote +:+ "id" +:+ quote +:+ ":" +:+ quote +:+ "abc" +:+ quote +:+ ","
  +:+ quote +:+ "name" +:+ quote +:+ ":" +:+ quote +:+ "x" +:+ quote +:+ "}".

(** The body [{"code":404,"message":"not found: widget"}]. *)
Definition not_found_body : string :=
  "{" +:+ quote +:+ "code" +:+ quote +:+ ":404," +:+ quote +:+ "message" +:+ quote
  +:+ ":" +:+ quote +:+ "not found: widget" +:+ quote +:+ "}".

Definition syntax_error : string :=
  "invalid character 'o' looking for beginning of value".

(** [json.Unmarshal] into [api.Error], tabulated on the sample bodies; any
    other body used below ([oops]) is not JSON, so the decoder fails and
    leaves the zero value. *)
Definition sample_Unmarshal_Error (body : string) : ApiError * option string :=
  if String.eqb body not_found_body
  then ({| ErrCode := 404; Message := "not found: widget" |}, None)
  else if String.eqb body created_body
  then ({| ErrCode := 0; Message := EmptyString |}, None)
  else ({| ErrCode := 0; Message := EmptyString |}, Some syntax_error).

(** [json.Unmarshal] into a map, tabulated in the same way. *)
Definition sample_Unmarshal_map (body : string)
  : gmap string JValue * option string :=
  if String.eqb body created_body
  then (<["id" := JString "abc"]> (<["name" := JString "x"]> ∅), None)
  else if String.eqb body not_found_body
  then (<["code" := JNumber 404]> (<["message" := JString "not found: widget"]> ∅),
        None)
  else (∅, Some syntax_error).

(** A hook that counts its calls and reports nothing. *)
Definition counting_hook : TestFunc nat := fun n => (S n, []).

Definition widgets : TestSuite nat :=
  {| Route := "/widgets"; Method := "POST";
     HandlerFunc := respond 201 created_body;
     AfterTestFunc := Some counting_hook; BeforeTestFunc := Some counting_hook |}.

(** A case whose field map names a field the body does not have. *)
Definition create_case : HandlerTest nat :=
  {| Name := "create"; Content := "{}"; WantStatusCode := 201;
     WantContent := created_body; WantErr := false; WantErrMessage := EmptyString;
     AssertContentFields :=
       Some [("missing_field", AssertNotEmptyFunc); ("id", AssertNotEmptyFunc)];
     BeforeRunFunc := None; AfterRunFunc := Some counting_hook;
     SkipBeforeTestFunc := true; SkipAfterTestFunc := false |}.

(** A suite whose handler answers 500 with a body that is not JSON. *)
Definition broken : TestSuite nat :=
  {| Route := "/broken"; Method := "GET"; HandlerFunc := respond 500 "oops";
     AfterTestFunc := None; BeforeTestFunc := None |}.

Definition broken_case : HandlerTest nat :=
  {| Name := "broken"; Content := EmptyString; WantStatusCode := 500;
     WantContent := EmptyString; WantErr := true; WantErrMessage := "oops";
     AssertContentFields := None; BeforeRunFunc := None; AfterRunFunc := None;
     SkipBeforeTestFunc := false; SkipAfterTestFunc := false |}.

(** A suite whose handler answers 404 with the standard error shape. *)
Definition lookup : TestSuite nat :=
  {| Route := "/widgets/7"; Method := "GET";
     HandlerFunc := respond 404 not_found_body;
     AfterTestFunc := None; BeforeTestFunc := None |}.

Definition not_found_case : HandlerTest nat :=
  {| Name := "not found"; Content := EmptyString; WantStatusCode := 404;
     WantContent := EmptyString; WantErr := true; WantErrMessage := "not found";
     AssertContentFields := None; BeforeRunFunc := None; AfterRunFunc := None;
     SkipBeforeTestFunc := false; SkipAfterTestFunc := false |}.

(** The scenario of a handler that answers 200 where 201 is wanted. *)
Definition ok_suite : TestSuite nat :=
  {| Route := "/widgets"; Method := "POST"; HandlerFunc := respond 200 created_body;
     AfterTestFunc := None; BeforeTestFunc := None |}.

(** The request parameters of [ok_suite]. *)
Definition ok_params : HandlerReqParams nat :=
  {| PRoute := Route ok_suite; PMethod := Method ok_suite;
     PHandlerFunc := HandlerFunc ok_suite |}.

(** A case with two fields the body has, and no hooks. *)
Definition fields_case : HandlerTest nat :=
  {| Name := "fields"; Content := EmptyString; WantStatusCode := 200;
     WantContent := EmptyString; WantErr := false; WantErrMessage := EmptyString;
     AssertContentFields :=
       Some [("id", AssertNotEmptyFunc); ("name", AssertNotEmptyFunc)];
     BeforeRunFunc := None; AfterRunFunc := None;
     SkipBeforeTestFunc := false; SkipAfterTestFunc := false |}.

Definition sample_run (ts : TestSuite nat) (ht : HandlerTest nat) :=
  RunHandlerTest buffer_ReadAll sample_Unmarshal_Error sample_Unmarshal_map ts ht 0%nat.

(** ** Further observations

    Definitions used to state properties of the suite loop, of the effects
    of a run on the shared state, and of the number of calls it makes. *)

(** The world an optional hook leaves: [if f != nil && run { f(t) }]. *)
Definition hook_world {World} (f : option (TestFunc World)) (run : bool)
    (σ : World) : World :=
  match f with
  | Some g => if run then (g σ).1 else σ
  | None => σ
  end.

(** The world the assertion functions leave, called one after the other on
    the decoded values of their fields. *)
Definition asserts_world {World} (rJSON : gmap string JValue)
    (fields : option (list (string * AssertFunc World))) (σ : World) : World :=
  match fields with
  | Some fs =>
      fold_left (fun σ' entry => (entry.2 (default JNil (rJSON !! entry.1)) σ').1)
                fs σ
  | None => σ
  end.

(** The same suite with no suite-level hook. *)
Definition without_suite_hooks {World} (ts : TestSuite World) : TestSuite World :=
  {| Route := Route ts; Method := Method ts; HandlerFunc := HandlerFunc ts;
     AfterTestFunc := None; BeforeTestFunc := None |}.

(** Is the event the call of an assertion function? *)
Definition is_assert_call (e : Event) : bool :=
  match e with AssertFuncCalled _ _ _ => true | _ => false end.

(** How many times a run called an assertion function. *)
Definition assert_calls (log : list Event) : nat :=
  length (List.filter is_assert_call log).

(** A case with a non-nil, empty field map, for the [broken] suite. *)
Definition empty_fields_case : HandlerTest nat :=
  {| Name := "empty fields"; Content := EmptyString; WantStatusCode := 500;
     WantContent := EmptyString; WantErr := false; WantErrMessage := EmptyString;
     AssertContentFields := Some []; BeforeRunFunc := None; AfterRunFunc := None;
     SkipBeforeTestFunc := false; SkipAfterTestFunc := false |}.

(** A case that opts out of both suite-level hooks. *)
Definition isolated_case : HandlerTest nat :=
  {| Name := "isolated"; Content := EmptyString; WantStatusCode := 201;
     WantContent := EmptyString; WantErr := false; WantErrMessage := EmptyString;
     AssertContentFields := None; BeforeRunFunc := Some counting_hook;
     AfterRunFunc := None;
     SkipBeforeTestFunc := true; SkipAfterTestFunc := true |}.

(** ** Laws of the test monad *)

Section MonadLaws.
Context {World : Type}.
Implicit Types σ : World.

Lemma trace_bind {A B} (c : Test World A) (k : A -> Test World B) σ :
  trace ((c ≫= k) σ) = trace (c σ) ++ trace (k (result (c σ)) (world (c σ))).
Proof.
  unfold mbind, test_bind, trace, result, world.
  destruct (c σ) as [[a σ1] l1]; simpl.
  destruct (k a σ1) as [[b σ2] l2]; reflexivity.
Qed.

Lemma world_bind {A B} (c : Test World A) (k : A -> Test World B) σ :
  world ((c ≫= k) σ) = world (k (result (c σ)) (world (c σ))).
Proof.
  unfold mbind, test_bind, trace, result, world.
  destruct (c σ) as [[a σ1] l1]; simpl.
  destruct (k a σ1) as [[b σ2] l2]; reflexivity.
Qed.

Lemma trace_ret {A} (a : A) σ : trace (mret (M := Test World) a σ) = [].
Proof. reflexivity. Qed.

Lemma world_ret {A} (a : A) σ : world (mret (M := Test World) a σ) = σ.
Proof. reflexivity. Qed.

Lemma trace_report e σ : trace (report e σ) = [e].
Proof. reflexivity. Qed.

Lemma world_report e σ : world (report e σ) = σ.
Proof. reflexivity. Qed.

Lemma trace_when b (c : Test World ()) σ :
  trace (when b c σ) = if b then trace (c σ) else [].
Proof. destruct b; reflexivity. Qed.

Lemma world_when b (c : Test World ()) σ :
  world (when b c σ) = if b then world (c σ) else σ.
Proof. destruct b; reflexivity. Qed.
End MonadLaws.

Create Rewrite HintDb test_monad.
#[local] Hint Rewrite @trace_bind @world_bind @trace_ret @world_ret
  @trace_report @world_report : test_monad.

(** ** The shape of a run's log *)

Section RunShape.
Context {World : Type}.
Variable ReadAll : string -> string * option string.
Variable Unmarshal_Error : string -> ApiError * option string.
Variable Unmarshal_map : string -> gmap string JValue * option string.

Abbreviation Run := (RunHandlerTest ReadAll Unmarshal_Error Unmarshal_map).
Abbreviation resp_of := (got_resp (World := World) ReadAll).
Abbreviation body_of := (got_body (World := World) ReadAll).
Abbreviation err_of := (got_err (World := World) ReadAll).
Abbreviation world_of := (world_after_request (World := World) ReadAll).

Implicit Types (ts : TestSuite World) (ht : HandlerTest World) (σ : World).

Lemma harness_trace p c a σ :
  trace (harness ReadAll p c a σ) = [HarnessCalled (PMethod p) (PRoute p) c a].
Proof.
  unfold harness. destruct (MakeHandlerRequest ReadAll p c a σ); reflexivity.
Qed.

Lemma harness_result p c a σ :
  result (harness ReadAll p c a σ) = (MakeHandlerRequest ReadAll p c a σ).1.
Proof.
  unfold harness. destruct (MakeHandlerRequest ReadAll p c a σ); reflexivity.
Qed.

Lemma harness_world p c a σ :
  world (harness ReadAll p c a σ) = (MakeHandlerRequest ReadAll p c a σ).2.
Proof.
  unfold harness. destruct (MakeHandlerRequest ReadAll p c a σ); reflexivity.
Qed.

Lemma RunHandlerTest_trace ts ht σ :
  trace (Run ts ht σ) =
    trace (before_hooks ts ht σ)
    ++ [HarnessCalled (Method ts) (Route ts) (Content ht) [WantStatusCode ht];
        AssertNoError (err_of ts ht σ);
        AssertEqualStatus (WantStatusCode ht) (StatusCode (resp_of ts ht σ))]
    ++ content_checks ht (body_of ts ht σ)
    ++ error_checks Unmarshal_Error ht (body_of ts ht σ)
    ++ trace (field_checks Unmarshal_map ht (body_of ts ht σ) (world_of ts ht σ))
    ++ trace (after_hooks ts ht
                (world (field_checks Unmarshal_map ht (body_of ts ht σ)
                          (world_of ts ht σ)))).
Proof.
  unfold RunHandlerTest, got_resp, got_body, got_err, world_after_request,
    harness_output, before_hooks.
  rewrite !trace_bind, !world_bind, harness_trace, harness_result, harness_world.
  set (σ0 := world (call_hook HBeforeRun _ _ _)).
  destruct (MakeHandlerRequest _ _ _ _ σ0) as [[[resp body] err] σ1]; simpl.
  unfold content_checks, error_checks, error_checks_triggered, field_checks,
    field_loop, after_hooks.
  destruct (is_empty (WantContent ht)), (is_empty (WantErrMessage ht)),
    (WantErr ht), (Unmarshal_Error body) as [errH [e|]],
    (AssertContentFields ht) as [fields|]; simpl;
    try destruct (Unmarshal_map body) as [rJSON [e'|]]; simpl;
    autorewrite with test_monad; simpl; rewrite <- ?app_assoc; reflexivity.
Qed.

Lemma RunHandlerTest_world ts ht σ :
  world (Run ts ht σ) =
    world (after_hooks ts ht
             (world (field_checks Unmarshal_map ht (body_of ts ht σ)
                       (world_of ts ht σ)))).
Proof.
  unfold RunHandlerTest, got_resp, got_body, got_err, world_after_request,
    harness_output, before_hooks.
  rewrite !world_bind, harness_result, harness_world.
  set (σ0 := world (call_hook HBeforeRun _ _ _)).
  destruct (MakeHandlerRequest _ _ _ _ σ0) as [[[resp body] err] σ1]; simpl.
  unfold field_checks, field_loop, after_hooks.
  destruct (is_empty (WantContent ht)), (is_empty (WantErrMessage ht)),
    (WantErr ht), (Unmarshal_Error body) as [errH [e|]],
    (AssertContentFields ht) as [fields|]; simpl;
    try destruct (Unmarshal_map body) as [rJSON [e'|]]; simpl;
    autorewrite with test_monad; reflexivity.
Qed.
End RunShape.


(** ** Strings *)

Lemma append_nil_l (b : string) : EmptyString +:+ b = b.
Proof. reflexivity. Qed.

Lemma append_cons (x : Ascii.ascii) (a b : string) :
  String x a +:+ b = String x (a +:+ b).
Proof. reflexivity. Qed.




Lemma is_empty_false (s : string) : is_empty s = false <-> s <> EmptyString.
Proof. destruct s; simpl; split; congruence. Qed.

Lemma HasPrefix_spec (s pre : string) :
  HasPrefix s pre = true <-> exists rest, s = pre +:+ rest.
Proof.
  revert s; induction pre as [|a pre IH]; intros s; simpl.
  - split; [intros _; by exists s | done].
  - destruct s as [|b s].
    + split; [done | intros [rest H]; discriminate H].
    + destruct (Ascii.eqb_spec a b) as [->|Hne].
      * rewrite IH. split; intros [rest H]; exists rest;
          rewrite append_cons in *; congruence.
      * split; [done | intros [rest H]; rewrite append_cons in H; congruence].
Qed.

(** [Contains] is the substring test. *)
Lemma Contains_spec (s substr : string) :
  Contains s substr = true <-> exists a b, s = a +:+ substr +:+ b.
Proof.
  induction s as [|c s IH]; simpl.
  - rewrite orb_false_r, HasPrefix_spec. split.
    + intros [rest H]. by exists EmptyString, rest.
    + intros [a [b H]]. destruct a; [by exists b | discriminate H].
  - rewrite orb_true_iff, HasPrefix_spec, IH. split.
    + intros [[rest H] | [a [b H]]].
      * by exists EmptyString, rest.
      * exists (String c a), b. by rewrite append_cons, H.
    + intros [a [b H]]. destruct a as [|x a].
      * left. by exists b.
      * right. exists a, b. rewrite append_cons in H. congruence.
Qed.

(** ** The accepted-status map *)

Lemma statusMap_fold_lookup (accepted : list Z) (m : gmap Z bool) (c : Z) :
  fold_left (fun statusMap status => <[status := true]> statusMap) accepted m !! c
  = if decide (c ∈ accepted) then Some true else m !! c.
Proof.
  revert m; induction accepted as [|a accepted IH]; intros m; cbn [fold_left].
  - rewrite decide_False; [done | apply not_elem_of_nil].
  - rewrite IH. destruct (decide (c ∈ accepted)) as [Hin|Hnin].
    + rewrite decide_True; [done | by right].
    + destruct (decide (c = a)) as [->|Hne].
      * rewrite decide_True; [by rewrite lookup_insert_eq | by left].
      * rewrite decide_False; [by rewrite lookup_insert_ne|].
        intros [?|?]%elem_of_cons; done.
Qed.

Lemma statusMap_of_lookup (accepted : list Z) (c : Z) :
  statusMap_of accepted !! c = if decide (c ∈ accepted) then Some true else None.
Proof. unfold statusMap_of. by rewrite statusMap_fold_lookup, lookup_empty. Qed.

(** ** The request harness *)

Section Harness.
Context {World : Type}.
Variable ReadAll : string -> string * option string.

Implicit Types (p : HandlerReqParams World) (σ : World).

(** The harness in closed form: the response is the recorder's snapshot,
    the body is what [ReadAll] returned, and the error is decided by the
    read and then by the accepted statuses. *)
Lemma MakeHandlerRequest_unfold p content accepted σ :
  let w := (handler_output p content σ).2 in
  let rd := ReadAll (Body (Result w)) in
  MakeHandlerRequest ReadAll p content accepted σ =
    ((Result w, rd.1,
      match rd.2 with
      | Some e => Some e
      | None =>
          if decide (accepted = [] \/ Code w ∈ accepted) then None
          else Some (unaccepted_status_error (PRoute p) (Code w) rd.1)
      end),
     (handler_output p content σ).1).
Proof.
  unfold MakeHandlerRequest, handler_output.
  destruct (PHandlerFunc p _ _ σ) as [σ' w]; simpl.
  destruct (ReadAll (RecBody w)) as [body [e|]]; simpl; [reflexivity|].
  destruct accepted as [|a accepted].
  - rewrite decide_True; [reflexivity | by left].
  - change (0 <? length (a :: accepted))%nat with true; cbv iota.
    rewrite statusMap_of_lookup.
    destruct (decide (Code w ∈ a :: accepted)) as [Hin|Hnin].
    + rewrite decide_True; [reflexivity | by right].
    + rewrite decide_False; [reflexivity | by intros [?|?]].
Qed.



(** C5: with an empty accepted-status set and a successful body read, the
    harness returns no error, whatever status the handler produced. *)
Theorem empty_accepted_no_error p content σ resp body err σ' :
  MakeHandlerRequest ReadAll p content [] σ = ((resp, body, err), σ') ->
  (ReadAll (Body resp)).2 = None ->
  err = None.
Proof.
  rewrite MakeHandlerRequest_unfold. cbv zeta.
  intros [= <- <- <- <-] Hread. cbn [Body Result fst snd] in *.
  by rewrite Hread.
Qed.

(** C9: in every outcome the harness returns the captured response and
    the body that was read: when the read fails (the error is the read
    error), when the status is not accepted (the error is the
    unaccepted-status message), and on success (no error). *)
Theorem always_returns_response_and_body p content accepted σ :
  (MakeHandlerRequest ReadAll p content accepted σ).1.1
    = (Result (recorded p content σ),
       (ReadAll (Body (Result (recorded p content σ)))).1)
  /\ match (ReadAll (Body (Result (recorded p content σ)))).2 with
     | Some e => (MakeHandlerRequest ReadAll p content accepted σ).1.2 = Some e
     | None =>
         (MakeHandlerRequest ReadAll p content accepted σ).1.2 = None
         \/ (MakeHandlerRequest ReadAll p content accepted σ).1.2
            = Some (unaccepted_status_error (PRoute p)
                      (Code (recorded p content σ))
                      (ReadAll (Body (Result (recorded p content σ)))).1)
     end.
Proof.
  rewrite MakeHandlerRequest_unfold. cbv zeta. fold (recorded p content σ).
  split; [reflexivity|]. simpl.
  destruct (ReadAll _).2; [reflexivity|].
  case_decide; [by left | by right].
Qed.
End Harness.


(** C5 on [ok_suite] with no accepted status. *)
Lemma empty_accepted_no_error_witness :
  let out := MakeHandlerRequest buffer_ReadAll ok_params EmptyString [] 0%nat in
  (buffer_ReadAll (Body out.1.1.1)).2 = None /\ out.1.2 = None.
Proof.
  cbv zeta.
  destruct (MakeHandlerRequest buffer_ReadAll ok_params EmptyString [] 0%nat)
    as [[[resp body] err] σ'] eqn:E.
  split; [reflexivity|].
  exact (empty_accepted_no_error buffer_ReadAll _ _ _ _ _ _ _ E eq_refl).
Defined.

(** ** Failure of a log *)


Lemma Failed_true_iff (l : list Event) :
  Failed l = true <-> exists e, e ∈ l /\ passes e = false.
Proof.
  unfold Failed. rewrite existsb_exists. split.
  - intros [e [Hin He]]. exists e. split; [by apply list_elem_of_In|].
    by apply negb_true_iff.
  - intros [e [Hin He]]. exists e. split; [by apply list_elem_of_In|].
    by apply negb_true_iff.
Qed.

Lemma Failed_false_iff (l : list Event) :
  Failed l = false <-> forall e, e ∈ l -> passes e = true.
Proof.
  split.
  - intros HF e Hin. destruct (passes e) eqn:He; [done|].
    assert (Failed l = true) by (apply Failed_true_iff; eauto). congruence.
  - intros Hall. destruct (Failed l) eqn:HF; [|done].
    apply Failed_true_iff in HF as [e [Hin He]]. rewrite Hall in He; done.
Qed.


(** ** The field loop *)

Section FieldLoop.
Context {World : Type}.
Implicit Types (σ : World) (rJSON : gmap string JValue)
  (fields : list (string * AssertFunc World)).

(** One turn of the loop: the events of the field, then the rest of the
    loop in the world the assertion function left. *)
Lemma field_loop_cons rJSON k (f : AssertFunc World) fields σ :
  trace (field_loop rJSON ((k, f) :: fields) σ)
    = field_events rJSON σ (k, f)
      ++ trace (field_loop rJSON fields (f (default JNil (rJSON !! k)) σ).1)
  /\ world (field_loop rJSON ((k, f) :: fields) σ)
     = world (field_loop rJSON fields (f (default JNil (rJSON !! k)) σ).1).
Proof.
  unfold field_loop, field_events; cbn [for_each fst snd].
  autorewrite with test_monad.
  unfold call_assert, when.
  destruct (bool_decide (rJSON !! k = None));
    autorewrite with test_monad;
    destruct (f (default JNil (rJSON !! k)) σ) as [σ' reported];
    by rewrite <- ?app_assoc.
Qed.

Lemma field_loop_nil rJSON σ :
  trace (field_loop rJSON [] σ) = [] /\ world (field_loop rJSON [] σ) = σ.
Proof. done. Qed.

(** Every event of the loop belongs to a configured field: it is the
    missing-key error of a field the map lacks, or the call of the field's
    assertion function on the decoded value ([nil] when absent). *)
Lemma field_loop_elem rJSON fields σ e :
  e ∈ trace (field_loop rJSON fields σ) ->
  exists k f, (k, f) ∈ fields /\
    ((e = TError (missing_key_error k) /\ rJSON !! k = None)
     \/ exists reported,
          e = AssertFuncCalled k (default JNil (rJSON !! k)) reported).
Proof.
  revert σ; induction fields as [|[k f] fields IH]; intros σ.
  - intros Hin. by apply elem_of_nil in Hin.
  - destruct (field_loop_cons rJSON k f fields σ) as [-> _].
    intros [Hin|Hin]%elem_of_app.
    + exists k, f. split; [by left|].
      unfold field_events in Hin; cbn [fst snd] in Hin.
      apply elem_of_app in Hin as [Hin|Hin].
      * case_bool_decide as Hk; [|by apply elem_of_nil in Hin].
        apply list_elem_of_singleton in Hin. by left.
      * apply list_elem_of_singleton in Hin. right. by eexists.
    + destruct (IH _ Hin) as (k' & f' & Hin' & He).
      exists k', f'. split; [by right | done].
Qed.

(** Every configured field is visited: its events appear in the log, the
    missing-key error (if any) right before the call. *)
Lemma field_loop_visits rJSON fields σ k f :
  (k, f) ∈ fields ->
  exists pre post σk,
    trace (field_loop rJSON fields σ)
      = pre ++ field_events rJSON σk (k, f) ++ post.
Proof.
  revert σ; induction fields as [|[k' f'] fields IH]; intros σ Hin.
  - by apply elem_of_nil in Hin.
  - destruct (field_loop_cons rJSON k' f' fields σ) as [-> _].
    apply elem_of_cons in Hin as [[= -> ->]|Hin].
    + by exists [], (trace (field_loop rJSON fields
                        (f' (default JNil (rJSON !! k')) σ).1)), σ.
    + destruct (IH (f' (default JNil (rJSON !! k')) σ).1 Hin)
        as (pre & post & σk & ->).
      exists (field_events rJSON σ (k', f') ++ pre), post, σk.
      by rewrite <- app_assoc.
Qed.

(** With assertion functions that leave the world alone, the loop's log
    is the fields' events one after the other. *)
Lemma field_loop_pure rJSON fields σ :
  pure_fields fields ->
  world (field_loop rJSON fields σ) = σ
  /\ trace (field_loop rJSON fields σ) = flat_map (field_events rJSON σ) fields.
Proof.
  induction fields as [|[k f] fields IH]; intros Hpure; [done|].
  destruct (field_loop_cons rJSON k f fields σ) as [-> ->].
  rewrite (Hpure k f (or_introl eq_refl)).
  destruct IH as [-> ->]; [|done].
  intros k' f' Hin. apply (Hpure k' f'). by right.
Qed.
End FieldLoop.

(** ** Hooks *)

Section Hooks.
Context {World : Type}.
Implicit Types (ts : TestSuite World) (ht : HandlerTest World) (σ : World).

Lemma call_hook_run h (f : option (TestFunc World)) run σ :
  trace (call_hook h f run σ)
    = match f with
      | Some g => if run then [HookCalled h (g σ).2] else []
      | None => []
      end
  /\ world (call_hook h f run σ)
     = match f with
       | Some g => if run then (g σ).1 else σ
       | None => σ
       end.
Proof.
  unfold call_hook, when. destruct f as [g|]; [|done].
  destruct run; [|done]. by destruct (g σ).
Qed.

Lemma call_hook_elem h (f : option (TestFunc World)) run σ e :
  e ∈ trace (call_hook h f run σ) -> exists reported, e = HookCalled h reported.
Proof.
  destruct (call_hook_run h f run σ) as [-> _].
  destruct f as [g|]; [destruct run|]; intros Hin;
    try (by apply elem_of_nil in Hin).
  apply list_elem_of_singleton in Hin. by eexists.
Qed.

Lemma call_hook_pure h (f : option (TestFunc World)) run σ :
  pure_hook f -> world (call_hook h f run σ) = σ.
Proof.
  intros Hpure. destruct (call_hook_run h f run σ) as [_ ->].
  destruct f as [g|]; [|done]. destruct run; [|done]. by apply Hpure.
Qed.

Lemma before_hooks_elem ts ht σ e :
  e ∈ trace (before_hooks ts ht σ) -> exists h reported, e = HookCalled h reported.
Proof.
  unfold before_hooks. rewrite trace_bind.
  intros [Hin|Hin]%elem_of_app; apply call_hook_elem in Hin as [r ->]; eauto.
Qed.

Lemma after_hooks_elem ts ht σ e :
  e ∈ trace (after_hooks ts ht σ) -> exists h reported, e = HookCalled h reported.
Proof.
  unfold after_hooks. rewrite trace_bind.
  intros [Hin|Hin]%elem_of_app; apply call_hook_elem in Hin as [r ->]; eauto.
Qed.

Lemma before_hooks_steps ts ht σ :
  map step_of (trace (before_hooks ts ht σ))
    = optional_step (configured (BeforeTestFunc ts) && negb (SkipBeforeTestFunc ht))
                    SuiteBeforeHook
      ++ optional_step (configured (BeforeRunFunc ht)) CaseBeforeHook.
Proof.
  unfold before_hooks. rewrite trace_bind, map_app.
  set (σ1 := world _).
  destruct (call_hook_run HBeforeTest (BeforeTestFunc ts)
              (negb (SkipBeforeTestFunc ht)) σ) as [-> _].
  destruct (call_hook_run HBeforeRun (BeforeRunFunc ht) true σ1) as [-> _].
  by destruct (BeforeTestFunc ts), (SkipBeforeTestFunc ht), (BeforeRunFunc ht).
Qed.

Lemma after_hooks_steps ts ht σ :
  map step_of (trace (after_hooks ts ht σ))
    = optional_step (configured (AfterRunFunc ht)) CaseAfterHook
      ++ optional_step (configured (AfterTestFunc ts) && negb (SkipAfterTestFunc ht))
                       SuiteAfterHook.
Proof.
  unfold after_hooks. rewrite trace_bind, map_app.
  set (σ1 := world _).
  destruct (call_hook_run HAfterRun (AfterRunFunc ht) true σ) as [-> _].
  destruct (call_hook_run HAfterTest (AfterTestFunc ts)
              (negb (SkipAfterTestFunc ht)) σ1) as [-> _].
  by destruct (AfterTestFunc ts), (SkipAfterTestFunc ht), (AfterRunFunc ht).
Qed.

Lemma before_hooks_pure ts ht σ :
  pure_hook (BeforeTestFunc ts) -> pure_hook (BeforeRunFunc ht) ->
  world (before_hooks ts ht σ) = σ.
Proof.
  intros H1 H2. unfold before_hooks.
  by rewrite world_bind, (call_hook_pure _ _ _ _ H2), (call_hook_pure _ _ _ _ H1).
Qed.

Lemma after_hooks_pure ts ht σ :
  pure_hook (AfterTestFunc ts) -> pure_hook (AfterRunFunc ht) ->
  world (after_hooks ts ht σ) = σ.
Proof.
  intros H1 H2. unfold after_hooks.
  by rewrite world_bind, (call_hook_pure _ _ _ _ H1), (call_hook_pure _ _ _ _ H2).
Qed.
End Hooks.

(** ** The validator's checks *)

Section Validator.
Context {World : Type}.
Variable Unmarshal_Error : string -> ApiError * option string.
Variable Unmarshal_map : string -> gmap string JValue * option string.

Implicit Types (ht : HandlerTest World) (σ : World).

Lemma content_checks_elem ht body e :
  e ∈ content_checks ht body ->
  WantContent ht <> EmptyString /\ e = AssertEqualContent (WantContent ht) body.
Proof.
  unfold content_checks. destruct (is_empty (WantContent ht)) eqn:E; simpl.
  - intros Hin. by apply elem_of_nil in Hin.
  - intros Hin%list_elem_of_singleton. by apply is_empty_false in E.
Qed.

Lemma error_checks_elem ht body e :
  e ∈ error_checks Unmarshal_Error ht body ->
  (exists m, (Unmarshal_Error body).2 = Some m /\ e = TError m)
  \/ e = AssertEqualCode (WantStatusCode ht) (ErrCode (Unmarshal_Error body).1)
  \/ (WantErr ht = true
      /\ e = AssertNotEmptyMessage (Message (Unmarshal_Error body).1))
  \/ (WantErrMessage ht <> EmptyString
      /\ e = AssertContainsMessage (Message (Unmarshal_Error body).1)
                                   (WantErrMessage ht)).
Proof.
  unfold error_checks. destruct (error_checks_triggered ht).
  2: { intros Hin. by apply elem_of_nil in Hin. }
  rewrite !elem_of_app. intros [Hin|[Hin|[Hin|Hin]]].
  - left. destruct (Unmarshal_Error body).2 as [m|];
      [|by apply elem_of_nil in Hin].
    apply list_elem_of_singleton in Hin. eauto.
  - right; left. by apply list_elem_of_singleton in Hin.
  - right; right; left. destruct (WantErr ht); [|by apply elem_of_nil in Hin].
    by apply list_elem_of_singleton in Hin.
  - right; right; right.
    destruct (is_empty (WantErrMessage ht)) eqn:E; simpl in Hin;
      [by apply elem_of_nil in Hin|].
    apply list_elem_of_singleton in Hin. by apply is_empty_false in E.
Qed.

Lemma field_checks_run ht body σ fields :
  AssertContentFields ht = Some fields ->
  trace (field_checks Unmarshal_map ht body σ)
    = match (Unmarshal_map body).2 with Some m => [TError m] | None => [] end
      ++ trace (field_loop (Unmarshal_map body).1 fields σ)
  /\ world (field_checks Unmarshal_map ht body σ)
     = world (field_loop (Unmarshal_map body).1 fields σ).
Proof.
  intros E. unfold field_checks. rewrite E.
  autorewrite with test_monad.
  by destruct (Unmarshal_map body).2.
Qed.

Lemma field_checks_none ht body σ :
  AssertContentFields ht = None ->
  trace (field_checks Unmarshal_map ht body σ) = []
  /\ world (field_checks Unmarshal_map ht body σ) = σ.
Proof. intros E. unfold field_checks. by rewrite E. Qed.

Lemma field_checks_elem ht body σ e :
  e ∈ trace (field_checks Unmarshal_map ht body σ) ->
  exists fields, AssertContentFields ht = Some fields /\
    ((exists m, (Unmarshal_map body).2 = Some m /\ e = TError m)
     \/ exists k f, (k, f) ∈ fields /\
          ((e = TError (missing_key_error k)
            /\ (Unmarshal_map body).1 !! k = None)
           \/ exists reported,
                e = AssertFuncCalled k
                      (default JNil ((Unmarshal_map body).1 !! k)) reported)).
Proof.
  destruct (AssertContentFields ht) as [fields|] eqn:E.
  - destruct (field_checks_run ht body σ fields E) as [-> _].
    intros [Hin|Hin]%elem_of_app; exists fields; (split; [done|]).
    + left. destruct (Unmarshal_map body).2 as [m|];
        [|by apply elem_of_nil in Hin].
      apply list_elem_of_singleton in Hin. eauto.
    + right. by apply field_loop_elem in Hin.
  - destruct (field_checks_none ht body σ E) as [-> _].
    intros Hin. by apply elem_of_nil in Hin.
Qed.

(** All of these are validator checks. *)
Lemma steps_of_checks (l : list Event) :
  (forall e, e ∈ l -> step_of e = ValidatorCheck) ->
  map step_of l = replicate (length l) ValidatorCheck.
Proof.
  induction l as [|e l IH]; intros Hall; [done|]. simpl.
  rewrite (Hall e), IH; [done | | by left].
  intros e' Hin. apply Hall. by right.
Qed.

Lemma content_checks_steps ht body :
  map step_of (content_checks ht body)
    = replicate (length (content_checks ht body)) ValidatorCheck.
Proof.
  apply steps_of_checks. by intros e [_ ->]%content_checks_elem.
Qed.

Lemma error_checks_steps ht body :
  map step_of (error_checks Unmarshal_Error ht body)
    = replicate (length (error_checks Unmarshal_Error ht body)) ValidatorCheck.
Proof.
  apply steps_of_checks.
  by intros e [(m & _ & ->)|[->|[[_ ->]|[_ ->]]]]%error_checks_elem.
Qed.

Lemma field_checks_steps ht body σ :
  map step_of (trace (field_checks Unmarshal_map ht body σ))
    = replicate (length (trace (field_checks Unmarshal_map ht body σ)))
                ValidatorCheck.
Proof.
  apply steps_of_checks. intros e Hin.
  apply field_checks_elem in Hin
    as (fields & _ & [(m & _ & ->)|(k & f & _ & [[-> _]|[r ->]])]); done.
Qed.
End Validator.

(** ** Properties of a run *)

Section Claims.
Context {World : Type}.
Variable ReadAll : string -> string * option string.
Variable Unmarshal_Error : string -> ApiError * option string.
Variable Unmarshal_map : string -> gmap string JValue * option string.

Abbreviation Run := (RunHandlerTest ReadAll Unmarshal_Error Unmarshal_map).
Abbreviation resp_of := (got_resp (World := World) ReadAll).
Abbreviation body_of := (got_body (World := World) ReadAll).
Abbreviation err_of := (got_err (World := World) ReadAll).
Abbreviation world_of := (world_after_request (World := World) ReadAll).

Implicit Types (ts : TestSuite World) (ht : HandlerTest World) (σ : World).

(** Where an event of a run comes from. *)
Lemma RunHandlerTest_elem ts ht σ e :
  e ∈ trace (Run ts ht σ) <->
    e ∈ trace (before_hooks ts ht σ)
    \/ e = HarnessCalled (Method ts) (Route ts) (Content ht) [WantStatusCode ht]
    \/ e = AssertNoError (err_of ts ht σ)
    \/ e = AssertEqualStatus (WantStatusCode ht) (StatusCode (resp_of ts ht σ))
    \/ e ∈ content_checks ht (body_of ts ht σ)
    \/ e ∈ error_checks Unmarshal_Error ht (body_of ts ht σ)
    \/ e ∈ trace (field_checks Unmarshal_map ht (body_of ts ht σ)
                   (world_of ts ht σ))
    \/ e ∈ trace (after_hooks ts ht
                    (world (field_checks Unmarshal_map ht (body_of ts ht σ)
                              (world_of ts ht σ)))).
Proof.
  rewrite RunHandlerTest_trace, !elem_of_app, !elem_of_cons, elem_of_nil.
  tauto.
Qed.

(** C3: one case runs the suite's before-hook (if configured and not
    skipped), the case's before-hook (if configured), the harness, the
    validator's checks, the case's after-hook (if configured) and the
    suite's after-hook (if configured and not skipped), in this order and
    each at most once; an absent hook leaves no step. *)
Theorem run_follows_spec_sequence ts ht σ :
  exists n, (2 <= n)%nat /\
    map step_of (trace (Run ts ht σ)) = spec_sequence ts ht n.
Proof.
  exists (2 + (length (content_checks ht (body_of ts ht σ))
               + (length (error_checks Unmarshal_Error ht (body_of ts ht σ))
                  + length (trace (field_checks Unmarshal_map ht
                                     (body_of ts ht σ) (world_of ts ht σ))))))%nat.
  split; [lia|].
  rewrite RunHandlerTest_trace. unfold spec_sequence.
  rewrite !map_app, before_hooks_steps, after_hooks_steps,
    content_checks_steps, error_checks_steps, field_checks_steps.
  rewrite <- !app_assoc. do 2 f_equal.
  cbn [map step_of app]. f_equal.
  change (2 + ?n)%nat with (S (S n)). cbn [replicate app].
  by rewrite !replicate_add, <- !app_assoc.
Qed.

(** Case analysis on the origin of an event of a run. *)
Ltac event_origin H :=
  apply RunHandlerTest_elem in H;
  destruct H as [H|[H|[H|[H|[H|[H|[H|H]]]]]]];
  [ apply before_hooks_elem in H as (? & ? & H)
  | | |
  | apply content_checks_elem in H as [? H]
  | apply error_checks_elem in H as [(? & ? & H)|[H|[[? H]|[? H]]]]
  | apply field_checks_elem in H
      as (? & ? & [(? & ? & H)|(? & ? & ? & [[H ?]|[? H]])])
  | apply after_hooks_elem in H as (? & ? & H) ];
  try discriminate H.

Lemma error_checks_triggered_iff ht :
  error_checks_triggered ht = true
  <-> WantErr ht = true \/ WantErrMessage ht <> EmptyString.
Proof.
  unfold error_checks_triggered.
  rewrite orb_true_iff, negb_true_iff, is_empty_false. tauto.
Qed.

(** The structured-error branch, once entered. *)
Lemma error_checks_entered ht body :
  WantErr ht = true \/ WantErrMessage ht <> EmptyString ->
  error_checks Unmarshal_Error ht body
    = match (Unmarshal_Error body).2 with Some e => [TError e] | None => [] end
      ++ [AssertEqualCode (WantStatusCode ht) (ErrCode (Unmarshal_Error body).1)]
      ++ (if WantErr ht
          then [AssertNotEmptyMessage (Message (Unmarshal_Error body).1)] else [])
      ++ (if negb (is_empty (WantErrMessage ht))
          then [AssertContainsMessage (Message (Unmarshal_Error body).1)
                                      (WantErrMessage ht)] else []).
Proof.
  intros H%error_checks_triggered_iff. unfold error_checks. by rewrite H.
Qed.

(** C6: with an empty expected body no body-equality check appears in the
    run, whatever the body is; with a non-empty expected body the run
    checks the raw body against it, that check passes exactly when the two
    are equal, and a run that does not fail had an equal body. *)
Theorem empty_expected_body_skips_check ts ht σ :
  (WantContent ht = EmptyString ->
     forall expected actual,
       AssertEqualContent expected actual ∉ trace (Run ts ht σ))
  /\ (WantContent ht <> EmptyString ->
       AssertEqualContent (WantContent ht) (body_of ts ht σ) ∈ trace (Run ts ht σ)
       /\ (forall expected actual,
             AssertEqualContent expected actual ∈ trace (Run ts ht σ) ->
             expected = WantContent ht /\ actual = body_of ts ht σ)
       /\ (passes (AssertEqualContent (WantContent ht) (body_of ts ht σ)) = true
            <-> body_of ts ht σ = WantContent ht)
       /\ (Failed (trace (Run ts ht σ)) = false ->
            body_of ts ht σ = WantContent ht)).
Proof.
  assert (Horigin : forall expected actual,
    AssertEqualContent expected actual ∈ trace (Run ts ht σ) ->
    WantContent ht <> EmptyString
    /\ expected = WantContent ht /\ actual = body_of ts ht σ).
  { intros expected actual Hin. event_origin Hin. by injection Hin as -> ->. }
  assert (Hpass : passes (AssertEqualContent (WantContent ht) (body_of ts ht σ))
                  = true <-> body_of ts ht σ = WantContent ht).
  { simpl. rewrite String.eqb_eq. split; congruence. }
  split.
  - intros Hempty expected actual Hin.
    by destruct (Horigin _ _ Hin) as [Hne _].
  - intros Hne.
    assert (Hin : AssertEqualContent (WantContent ht) (body_of ts ht σ)
                    ∈ trace (Run ts ht σ)).
    { apply RunHandlerTest_elem. do 4 right. left.
      unfold content_checks. apply is_empty_false in Hne. rewrite Hne.
      by apply list_elem_of_singleton. }
    repeat split; try apply Hpass; try done.
    + by destruct (Horigin _ _ H) as (_ & -> & _).
    + by destruct (Horigin _ _ H) as (_ & _ & ->).
    + intros HF. apply Hpass. by apply (proj1 (Failed_false_iff _) HF).
Qed.

(** C7: when the structured-error checks are triggered and the body
    decodes into the error shape, the run checks the decoded code against
    the expected status, checks the message for non-emptiness if an error
    is expected, and checks that the message contains the expected
    substring if one is given; a run that does not fail satisfied all
    three. *)
Theorem error_shape_checked ts ht σ errH :
  WantErr ht = true \/ WantErrMessage ht <> EmptyString ->
  Unmarshal_Error (body_of ts ht σ) = (errH, None) ->
  AssertEqualCode (WantStatusCode ht) (ErrCode errH) ∈ trace (Run ts ht σ)
  /\ (WantErr ht = true ->
       AssertNotEmptyMessage (Message errH) ∈ trace (Run ts ht σ))
  /\ (WantErrMessage ht <> EmptyString ->
       AssertContainsMessage (Message errH) (WantErrMessage ht)
         ∈ trace (Run ts ht σ))
  /\ (Failed (trace (Run ts ht σ)) = false ->
       ErrCode errH = WantStatusCode ht
       /\ (WantErr ht = true -> Message errH <> EmptyString)
       /\ (WantErrMessage ht <> EmptyString ->
            exists a b, Message errH = a +:+ WantErrMessage ht +:+ b)).
Proof.
  intros Htrig Hdec.
  pose proof (error_checks_entered ht (body_of ts ht σ) Htrig) as Hchecks.
  rewrite Hdec in Hchecks; cbn [fst snd] in Hchecks.
  assert (Hcode : AssertEqualCode (WantStatusCode ht) (ErrCode errH)
                    ∈ trace (Run ts ht σ)).
  { apply RunHandlerTest_elem. do 5 right. left. rewrite Hchecks.
    rewrite !elem_of_app. right; left. by apply list_elem_of_singleton. }
  assert (Hmsg : WantErr ht = true ->
                 AssertNotEmptyMessage (Message errH) ∈ trace (Run ts ht σ)).
  { intros HW. apply RunHandlerTest_elem. do 5 right. left. rewrite Hchecks, HW.
    rewrite !elem_of_app. right; right; left. by apply list_elem_of_singleton. }
  assert (Hsub : WantErrMessage ht <> EmptyString ->
                 AssertContainsMessage (Message errH) (WantErrMessage ht)
                   ∈ trace (Run ts ht σ)).
  { intros HW%is_empty_false. apply RunHandlerTest_elem. do 5 right. left.
    rewrite Hchecks, HW. rewrite !elem_of_app. right; right; right.
    by apply list_elem_of_singleton. }
  repeat split; try done.
  - pose proof (proj1 (Failed_false_iff _) H _ Hcode) as Hp.
    simpl in Hp. apply Z.eqb_eq in Hp. done.
  - intros HW. pose proof (proj1 (Failed_false_iff _) H _ (Hmsg HW)) as Hp.
    simpl in Hp. apply negb_true_iff in Hp. by apply is_empty_false.
  - intros HW. pose proof (proj1 (Failed_false_iff _) H _ (Hsub HW)) as Hp.
    simpl in Hp. by apply Contains_spec.
Qed.



(** C2, amended: when the structured-error checks are triggered and the
    body does not decode, the run reports the decode error and goes on in
    the same branch: it checks the code and, as configured, the message
    of the value the decoder left, and then runs the field assertions and
    the after-hooks.  The run fails. *)
Theorem decode_failure_reported_checks_continue ts ht σ errH e :
  WantErr ht = true \/ WantErrMessage ht <> EmptyString ->
  Unmarshal_Error (body_of ts ht σ) = (errH, Some e) ->
  trace (Run ts ht σ) =
    trace (before_hooks ts ht σ)
    ++ [HarnessCalled (Method ts) (Route ts) (Content ht) [WantStatusCode ht];
        AssertNoError (err_of ts ht σ);
        AssertEqualStatus (WantStatusCode ht) (StatusCode (resp_of ts ht σ))]
    ++ content_checks ht (body_of ts ht σ)
    ++ ([TError e; AssertEqualCode (WantStatusCode ht) (ErrCode errH)]
        ++ (if WantErr ht then [AssertNotEmptyMessage (Message errH)] else [])
        ++ (if negb (is_empty (WantErrMessage ht))
            then [AssertContainsMessage (Message errH) (WantErrMessage ht)]
            else []))
    ++ trace (field_checks Unmarshal_map ht (body_of ts ht σ) (world_of ts ht σ))
    ++ trace (after_hooks ts ht
                (world (field_checks Unmarshal_map ht (body_of ts ht σ)
                          (world_of ts ht σ))))
  /\ Failed (trace (Run ts ht σ)) = true.
Proof.
  intros Htrig Hdec.
  pose proof (error_checks_entered ht (body_of ts ht σ) Htrig) as Hchecks.
  rewrite Hdec in Hchecks; cbn [fst snd app] in Hchecks.
  split; [by rewrite RunHandlerTest_trace, Hchecks|].
  apply Failed_true_iff. exists (TError e). split; [|done].
  apply RunHandlerTest_elem. do 5 right. left. rewrite Hchecks. by left.
Qed.

(** C1, amended: when a field map is configured, the assertion function
    of every configured field is invoked - on the decoded value when the
    field is present, on [nil] when it is absent - and it is invoked for
    configured fields only.  For an absent field the missing-key error is
    reported right before the call, so the run fails. *)
Theorem field_assertions_dispatch ts ht σ fields :
  AssertContentFields ht = Some fields ->
  (forall k f v, (k, f) ∈ fields ->
     (Unmarshal_map (body_of ts ht σ)).1 !! k = Some v ->
     exists pre post σk,
       trace (Run ts ht σ) = pre ++ AssertFuncCalled k v (f v σk).2 :: post)
  /\ (forall k f, (k, f) ∈ fields ->
       (Unmarshal_map (body_of ts ht σ)).1 !! k = None ->
       (exists pre post σk,
          trace (Run ts ht σ)
            = pre ++ TError (missing_key_error k)
                  :: AssertFuncCalled k JNil (f JNil σk).2 :: post)
       /\ Failed (trace (Run ts ht σ)) = true)
  /\ (forall k v reported,
       AssertFuncCalled k v reported ∈ trace (Run ts ht σ) ->
       (exists f, (k, f) ∈ fields)
       /\ v = default JNil ((Unmarshal_map (body_of ts ht σ)).1 !! k)).
Proof.
  intros Hfields.
  assert (Hvisit : forall k f, (k, f) ∈ fields ->
    exists pre post σk,
      trace (Run ts ht σ)
        = pre ++ field_events (Unmarshal_map (body_of ts ht σ)).1 σk (k, f)
              ++ post).
  { intros k f Hin.
    destruct (field_checks_run Unmarshal_map ht (body_of ts ht σ)
                (world_of ts ht σ) fields Hfields) as [Htr _].
    destruct (field_loop_visits (Unmarshal_map (body_of ts ht σ)).1 fields
                (world_of ts ht σ) k f Hin) as (pre & post & σk & Hloop).
    rewrite RunHandlerTest_trace, Htr, Hloop.
    exists (trace (before_hooks ts ht σ)
            ++ [HarnessCalled (Method ts) (Route ts) (Content ht)
                  [WantStatusCode ht];
                AssertNoError (err_of ts ht σ);
                AssertEqualStatus (WantStatusCode ht)
                  (StatusCode (resp_of ts ht σ))]
            ++ content_checks ht (body_of ts ht σ)
            ++ error_checks Unmarshal_Error ht (body_of ts ht σ)
            ++ match (Unmarshal_map (body_of ts ht σ)).2 with
               | Some m => [TError m]
               | None => []
               end
            ++ pre),
      (post ++ trace (after_hooks ts ht
                        (world (field_checks Unmarshal_map ht (body_of ts ht σ)
                                  (world_of ts ht σ))))),
      σk.
    rewrite <- !app_assoc. reflexivity. }
  split; [|split].
  - intros k f v Hin Hk. destruct (Hvisit k f Hin) as (pre & post & σk & ->).
    unfold field_events; cbn [fst snd]. rewrite Hk.
    by exists pre, post, σk.
  - intros k f Hin Hk. destruct (Hvisit k f Hin) as (pre & post & σk & Htr).
    unfold field_events in Htr; cbn [fst snd] in Htr. rewrite Hk in Htr.
    split; [by exists pre, post, σk|].
    apply Failed_true_iff. exists (TError (missing_key_error k)).
    split; [|done]. rewrite Htr, elem_of_app. right. by left.
  - intros k v reported Hin. event_origin Hin.
    injection Hin as Hk Hv Hr; subst k v reported.
    match goal with
    | Hf : AssertContentFields ht = Some ?fs, Hm : (_, ?f) ∈ ?fs |- _ =>
        split; [exists f; congruence | done]
    end.
Qed.

(** A run with pure callbacks leaves the world as it found it, at every
    stage. *)
Lemma pure_run_worlds ts ht σ :
  pure_suite ts -> pure_case ht ->
  world (before_hooks ts ht σ) = σ
  /\ world_of ts ht σ = σ
  /\ world (field_checks Unmarshal_map ht (body_of ts ht σ) σ) = σ
  /\ world (Run ts ht σ) = σ.
Proof.
  intros (Hh & Hb & Ha) (Hb' & Ha' & Hf).
  assert (H1 : world (before_hooks ts ht σ) = σ) by by apply before_hooks_pure.
  assert (H2 : world_of ts ht σ = σ).
  { unfold world_after_request, harness_output.
    rewrite MakeHandlerRequest_unfold. cbv zeta. cbn [snd].
    unfold handler_output. cbn [PHandlerFunc]. by rewrite Hh. }
  assert (H3 : world (field_checks Unmarshal_map ht (body_of ts ht σ) σ) = σ).
  { destruct (AssertContentFields ht) as [fields|] eqn:E.
    - destruct (field_checks_run Unmarshal_map ht (body_of ts ht σ) σ fields E)
        as [_ ->].
      by apply field_loop_pure, Hf.
    - by destruct (field_checks_none Unmarshal_map ht (body_of ts ht σ) σ E). }
  repeat split; try done.
  rewrite RunHandlerTest_world, H2, H3. by apply after_hooks_pure.
Qed.

End Claims.

(** ** The properties on the sample suites *)

Abbreviation sample_body ts ht := (got_body buffer_ReadAll ts ht 0%nat).

(** The log of the [create] case: the field [missing_field] is absent from
    the body, its error is reported and its assertion function runs on
    [nil]. *)
Lemma create_case_log :
  trace (sample_run widgets create_case) =
    [HarnessCalled "POST" "/widgets" "{}" [201];
     AssertNoError None;
     AssertEqualStatus 201 201;
     AssertEqualContent created_body created_body;
     TError (missing_key_error "missing_field");
     AssertFuncCalled "missing_field" JNil ["Should NOT be empty"];
     AssertFuncCalled "id" (JString "abc") [];
     HookCalled HAfterRun [];
     HookCalled HAfterTest []].
Proof. vm_compute. reflexivity. Qed.

(** The log of the [broken] case: the body [oops] is not JSON. *)
Lemma broken_case_log :
  trace (sample_run broken broken_case) =
    [HarnessCalled "GET" "/broken" EmptyString [500];
     AssertNoError None;
     AssertEqualStatus 500 500;
     TError syntax_error;
     AssertEqualCode 500 0;
     AssertNotEmptyMessage EmptyString;
     AssertContainsMessage EmptyString "oops"].
Proof. vm_compute. reflexivity. Qed.

(** C1, as stated, fails on the [create] case: the assertion function of
    [missing_field] is invoked although the decoded body has no such
    field. *)
Lemma absent_field_still_asserted :
  (sample_Unmarshal_map (sample_body widgets create_case)).1 !! "missing_field" = None
  /\ ~ asserted_only_when_present
         (sample_Unmarshal_map (sample_body widgets create_case)).1
         (trace (sample_run widgets create_case)).
Proof.
  assert (Hnone : (sample_Unmarshal_map (sample_body widgets create_case)).1
                    !! "missing_field" = None) by (vm_compute; reflexivity).
  split; [exact Hnone|].
  intros Hclaim.
  destruct (Hclaim "missing_field" JNil ["Should NOT be empty"]) as [v Hv].
  - rewrite create_case_log. do 5 apply list_elem_of_further.
    apply list_elem_of_here.
  - rewrite Hnone in Hv. discriminate Hv.
Qed.

(** C1, amended, on the [create] case. *)
Lemma field_assertions_dispatch_witness :
  AssertContentFields create_case
    = Some [("missing_field", AssertNotEmptyFunc); ("id", AssertNotEmptyFunc)]
  /\ (exists pre post (σk : nat),
        trace (sample_run widgets create_case)
          = pre ++ TError (missing_key_error "missing_field")
                :: AssertFuncCalled "missing_field" JNil
                     (AssertNotEmptyFunc JNil σk).2 :: post)
  /\ Failed (trace (sample_run widgets create_case)) = true.
Proof.
  split; [reflexivity|].
  destruct (field_assertions_dispatch buffer_ReadAll sample_Unmarshal_Error
              sample_Unmarshal_map widgets create_case 0%nat _ eq_refl)
    as (_ & Habsent & _).
  apply (Habsent "missing_field" AssertNotEmptyFunc).
  - apply list_elem_of_here.
  - vm_compute. reflexivity.
Defined.

(** C2, as stated, fails on the [broken] case: the body does not decode,
    and the code, non-emptiness and substring checks are executed all the
    same. *)
Lemma decode_failure_does_not_abort_branch :
  (WantErr broken_case = true \/ WantErrMessage broken_case <> EmptyString)
  /\ (sample_Unmarshal_Error (sample_body broken broken_case)).2 = Some syntax_error
  /\ ~ error_branch_aborted (trace (sample_run broken broken_case)).
Proof.
  split; [by left|]. split; [vm_compute; reflexivity|].
  intros Hclaim.
  apply (Hclaim (AssertEqualCode 500 0)).
  rewrite broken_case_log. do 4 apply list_elem_of_further.
  apply list_elem_of_here.
Qed.

(** C2, amended, on the [broken] case. *)
Lemma decode_failure_reported_checks_continue_witness :
  (WantErr broken_case = true \/ WantErrMessage broken_case <> EmptyString)
  /\ sample_Unmarshal_Error (sample_body broken broken_case)
     = ({| ErrCode := 0; Message := EmptyString |}, Some syntax_error)
  /\ Failed (trace (sample_run broken broken_case)) = true.
Proof.
  assert (Htrig : WantErr broken_case = true
                  \/ WantErrMessage broken_case <> EmptyString) by (by left).
  assert (Hdec : sample_Unmarshal_Error (sample_body broken broken_case)
                 = ({| ErrCode := 0; Message := EmptyString |}, Some syntax_error))
    by (vm_compute; reflexivity).
  split; [exact Htrig|]. split; [exact Hdec|].
  exact (proj2 (decode_failure_reported_checks_continue buffer_ReadAll
                  sample_Unmarshal_Error sample_Unmarshal_map broken broken_case
                  0%nat _ _ Htrig Hdec)).
Defined.

(** C7 on the [not found] case. *)
Lemma error_shape_checked_witness :
  (WantErr not_found_case = true \/ WantErrMessage not_found_case <> EmptyString)
  /\ sample_Unmarshal_Error (sample_body lookup not_found_case)
     = ({| ErrCode := 404; Message := "not found: widget" |}, None)
  /\ AssertEqualCode 404 404 ∈ trace (sample_run lookup not_found_case)
  /\ AssertNotEmptyMessage "not found: widget"
       ∈ trace (sample_run lookup not_found_case)
  /\ AssertContainsMessage "not found: widget" "not found"
       ∈ trace (sample_run lookup not_found_case).
Proof.
  assert (Htrig : WantErr not_found_case = true
                  \/ WantErrMessage not_found_case <> EmptyString) by (by left).
  assert (Hdec : sample_Unmarshal_Error (sample_body lookup not_found_case)
                 = ({| ErrCode := 404; Message := "not found: widget" |}, None))
    by (vm_compute; reflexivity).
  split; [exact Htrig|]. split; [exact Hdec|].
  destruct (error_shape_checked buffer_ReadAll sample_Unmarshal_Error
              sample_Unmarshal_map lookup not_found_case 0%nat _ Htrig Hdec)
    as (Hcode & Hmsg & Hsub & _).
  split; [exact Hcode|]. split; [by apply Hmsg|]. by apply Hsub.
Defined.


Lemma ok_suite_pure : pure_suite ok_suite.
Proof. repeat split; intros g Hg; discriminate Hg. Qed.

Lemma fields_case_pure : pure_case fields_case.
Proof.
  split; [intros g Hg; discriminate Hg|]. split; [intros g Hg; discriminate Hg|].
  intros fields [= <-] k f [[= <- <-]|[[= <- <-]|[]]] v σ; reflexivity.
Qed.


(** ** Further properties of the harness *)

Section HarnessMore.
Context {World : Type}.
Variable ReadAll : string -> string * option string.

Implicit Types (p : HandlerReqParams World) (σ : World).

(** X1: the accepted statuses are used as a set: two lists with the same
    members, in any order and with any repetition, give the same result. *)
Theorem accepted_codes_as_set p content accepted accepted' σ :
  (forall c, c ∈ accepted <-> c ∈ accepted') ->
  MakeHandlerRequest ReadAll p content accepted σ
    = MakeHandlerRequest ReadAll p content accepted' σ.
Proof.
  intros Hsame. rewrite !MakeHandlerRequest_unfold. cbv zeta.
  do 2 f_equal. destruct (ReadAll _).2; [done|].
  apply decide_ext.
  assert (Hnil : accepted = [] <-> accepted' = []).
  { split; intros ->.
    - destruct accepted' as [|c l]; [done|].
      by destruct (not_elem_of_nil c); apply Hsame; left.
    - destruct accepted as [|c l]; [done|].
      by destruct (not_elem_of_nil c); apply Hsame; left. }
  rewrite Hnil, Hsame. tauto.
Qed.

(** X2: the accepted statuses decide the error only: the response, the
    body and the state the handler left are the same for every list. *)
Theorem accepted_codes_only_decide_error p content accepted accepted' σ :
  (MakeHandlerRequest ReadAll p content accepted σ).1.1
    = (MakeHandlerRequest ReadAll p content accepted' σ).1.1
  /\ (MakeHandlerRequest ReadAll p content accepted σ).2
     = (MakeHandlerRequest ReadAll p content accepted' σ).2
  /\ (MakeHandlerRequest ReadAll p content accepted σ).2
     = (PHandlerFunc p NewRecorder (NewRequest (PMethod p) (PRoute p) content) σ).1.
Proof. rewrite !MakeHandlerRequest_unfold. by cbv zeta. Qed.
End HarnessMore.

(** X1 on [ok_suite]: [200; 201] and [201; 200; 201]. *)
Lemma accepted_codes_as_set_witness :
  (forall c : Z, c ∈ [200; 201] <-> c ∈ [201; 200; 201])
  /\ MakeHandlerRequest buffer_ReadAll ok_params EmptyString [200; 201] 0%nat
     = MakeHandlerRequest buffer_ReadAll ok_params EmptyString [201; 200; 201] 0%nat.
Proof.
  assert (Hsame : forall c : Z, c ∈ [200; 201] <-> c ∈ [201; 200; 201]).
  { intros c. rewrite !elem_of_cons, !elem_of_nil. tauto. }
  split; [exact Hsame|].
  exact (accepted_codes_as_set buffer_ReadAll ok_params EmptyString _ _ 0%nat Hsame).
Defined.

(** ** Further properties of a run *)

Lemma Failed_nil : Failed [] = false.
Proof. reflexivity. Qed.


Lemma assert_calls_app (l1 l2 : list Event) :
  assert_calls (l1 ++ l2) = (assert_calls l1 + assert_calls l2)%nat.
Proof. unfold assert_calls. by rewrite List.filter_app, length_app. Qed.

Lemma assert_calls_none (l : list Event) :
  (forall e, e ∈ l -> is_assert_call e = false) -> assert_calls l = 0%nat.
Proof.
  unfold assert_calls. induction l as [|e l IH]; intros Hall; [done|].
  simpl. rewrite (Hall e) by by left. apply IH.
  intros e' Hin. apply Hall. by right.
Qed.

Section RunMore.
Context {World : Type}.
Variable ReadAll : string -> string * option string.
Variable Unmarshal_Error : string -> ApiError * option string.
Variable Unmarshal_map : string -> gmap string JValue * option string.

Abbreviation Run' := (RunHandlerTest ReadAll Unmarshal_Error Unmarshal_map).
Abbreviation resp_of' := (got_resp (World := World) ReadAll).
Abbreviation body_of' := (got_body (World := World) ReadAll).
Abbreviation err_of' := (got_err (World := World) ReadAll).
Abbreviation world_of' := (world_after_request (World := World) ReadAll).

Implicit Types (ts : TestSuite World) (ht : HandlerTest World) (σ : World).


(** The loop calls one assertion function per entry. *)
Lemma field_loop_assert_calls (rJSON : gmap string JValue)
    (fields : list (string * AssertFunc World)) σ :
  assert_calls (trace (field_loop rJSON fields σ)) = length fields.
Proof.
  revert σ; induction fields as [|[k f] fields IH]; intros σ; [done|].
  destruct (field_loop_cons rJSON k f fields σ) as [-> _].
  rewrite assert_calls_app, IH. unfold field_events; cbn [fst snd].
  rewrite assert_calls_app. by case_bool_decide.
Qed.

(** X4: a run calls the assertion functions once per entry of the field
    map, whatever the body is and whether or not it decodes. *)
Theorem one_assert_call_per_field ts ht σ fields :
  AssertContentFields ht = Some fields ->
  assert_calls (trace (Run' ts ht σ)) = length fields.
Proof.
  intros Hfields. rewrite RunHandlerTest_trace, !assert_calls_app.
  destruct (field_checks_run Unmarshal_map ht (body_of' ts ht σ)
              (world_of' ts ht σ) fields Hfields) as [-> _].
  rewrite assert_calls_app, field_loop_assert_calls.
  rewrite (assert_calls_none (trace (before_hooks ts ht σ))).
  2: { by intros e (h & r & ->)%before_hooks_elem. }
  rewrite (assert_calls_none (content_checks ht _)).
  2: { by intros e [_ ->]%content_checks_elem. }
  rewrite (assert_calls_none (error_checks Unmarshal_Error ht _)).
  2: { by intros e [(m & _ & ->)|[->|[[_ ->]|[_ ->]]]]%error_checks_elem. }
  rewrite (assert_calls_none (trace (after_hooks ts ht _))).
  2: { by intros e (h & r & ->)%after_hooks_elem. }
  by destruct (Unmarshal_map (body_of' ts ht σ)).2.
Qed.

(** X5: with a nil field map no assertion function is called and the body
    is not decoded as a map: the field block leaves no event. *)
Theorem nil_field_map_no_calls ts ht σ :
  AssertContentFields ht = None ->
  assert_calls (trace (Run' ts ht σ)) = 0%nat
  /\ trace (field_checks Unmarshal_map ht (body_of' ts ht σ) (world_of' ts ht σ))
     = [].
Proof.
  intros Hnil.
  destruct (field_checks_none Unmarshal_map ht (body_of' ts ht σ)
              (world_of' ts ht σ) Hnil) as [Hnone _].
  split; [|done]. apply assert_calls_none. intros e Hin.
  apply RunHandlerTest_elem in Hin.
  destruct Hin as [H|[H|[H|[H|[H|[H|[H|H]]]]]]].
  - by apply before_hooks_elem in H as (? & ? & ->).
  - by subst.
  - by subst.
  - by subst.
  - by apply content_checks_elem in H as [_ ->].
  - by apply error_checks_elem in H as [(m & _ & ->)|[->|[[_ ->]|[_ ->]]]].
  - rewrite Hnone in H. by apply elem_of_nil in H.
  - by apply after_hooks_elem in H as (? & ? & ->).
Qed.

(** X6: a field map that is not nil makes the run decode the body as a
    map, even when the map has no entry; if the body does not decode the
    error is reported and the run fails. *)
Theorem field_map_decode_failure_fails ts ht σ fields e :
  AssertContentFields ht = Some fields ->
  (Unmarshal_map (body_of' ts ht σ)).2 = Some e ->
  TError e ∈ trace (Run' ts ht σ) /\ Failed (trace (Run' ts ht σ)) = true.
Proof.
  intros Hfields Hdec.
  assert (Hin : TError e ∈ trace (Run' ts ht σ)).
  { apply RunHandlerTest_elem. do 6 right. left.
    destruct (field_checks_run Unmarshal_map ht (body_of' ts ht σ)
                (world_of' ts ht σ) fields Hfields) as [-> _].
    rewrite Hdec. by left. }
  split; [done|]. apply Failed_true_iff. by exists (TError e).
Qed.

(** X7: in a run that does not fail and has the structured-error checks
    triggered, the body decoded and the code it carries is the HTTP status
    of the response. *)
Theorem passing_error_case_codes_agree ts ht σ :
  WantErr ht = true \/ WantErrMessage ht <> EmptyString ->
  Failed (trace (Run' ts ht σ)) = false ->
  (Unmarshal_Error (body_of' ts ht σ)).2 = None
  /\ ErrCode (Unmarshal_Error (body_of' ts ht σ)).1
     = StatusCode (resp_of' ts ht σ).
Proof.
  intros Htrig HF.
  pose proof (proj1 (Failed_false_iff _) HF) as Hall.
  pose proof (error_checks_entered Unmarshal_Error ht (body_of' ts ht σ) Htrig)
    as Hchecks.
  assert (Hsub : forall ev, ev ∈ error_checks Unmarshal_Error ht (body_of' ts ht σ)
                   -> passes ev = true).
  { intros ev Hin. apply Hall, RunHandlerTest_elem. do 5 right. by left. }
  split.
  - destruct (Unmarshal_Error (body_of' ts ht σ)).2 as [m|] eqn:Hdec; [|done].
    specialize (Hsub (TError m)). rewrite Hchecks in Hsub.
    discriminate Hsub. by left.
  - assert (H1 : passes (AssertEqualCode (WantStatusCode ht)
                   (ErrCode (Unmarshal_Error (body_of' ts ht σ)).1)) = true).
    { apply Hsub. rewrite Hchecks, !elem_of_app. right; left. by left. }
    assert (H2 : passes (AssertEqualStatus (WantStatusCode ht)
                   (StatusCode (resp_of' ts ht σ))) = true).
    { apply Hall, RunHandlerTest_elem. do 3 right. by left. }
    simpl in H1, H2. apply Z.eqb_eq in H1, H2. congruence.
Qed.



Lemma call_hook_world h (f : option (TestFunc World)) run σ :
  world (call_hook h f run σ) = hook_world f run σ.
Proof. by destruct (call_hook_run h f run σ) as [_ ->]. Qed.

Lemma field_loop_world (rJSON : gmap string JValue)
    (fields : list (string * AssertFunc World)) σ :
  world (field_loop rJSON fields σ) = asserts_world rJSON (Some fields) σ.
Proof.
  revert σ; induction fields as [|[k f] fields IH]; intros σ; [done|].
  destruct (field_loop_cons rJSON k f fields σ) as [_ ->]. by rewrite IH.
Qed.

(** X9: the effects of a run on the shared state compose in program
    order: the suite's before-hook (unless skipped), the case's
    before-hook, the handler - called once, on a fresh recorder and on the
    request made of the suite's method and route and the case's content -,
    the assertion functions in the order of the loop, the case's
    after-hook, the suite's after-hook (unless skipped).  The runner's own
    assertions leave the state alone. *)
Theorem run_effects_compose ts ht σ :
  world (Run' ts ht σ) =
    hook_world (AfterTestFunc ts) (negb (SkipAfterTestFunc ht))
      (hook_world (AfterRunFunc ht) true
         (asserts_world (Unmarshal_map (body_of' ts ht σ)).1 (AssertContentFields ht)
            (HandlerFunc ts NewRecorder
               (NewRequest (Method ts) (Route ts) (Content ht))
               (hook_world (BeforeRunFunc ht) true
                  (hook_world (BeforeTestFunc ts) (negb (SkipBeforeTestFunc ht))
                     σ))).1)).
Proof.
  rewrite RunHandlerTest_world.
  assert (Hb : world (before_hooks ts ht σ)
               = hook_world (BeforeRunFunc ht) true
                   (hook_world (BeforeTestFunc ts) (negb (SkipBeforeTestFunc ht)) σ)).
  { unfold before_hooks. by rewrite world_bind, !call_hook_world. }
  assert (Hw : world_of' ts ht σ
               = (HandlerFunc ts NewRecorder
                    (NewRequest (Method ts) (Route ts) (Content ht))
                    (world (before_hooks ts ht σ))).1).
  { unfold world_after_request, harness_output.
    rewrite MakeHandlerRequest_unfold. by cbv zeta. }
  assert (Hf : world (field_checks Unmarshal_map ht (body_of' ts ht σ)
                        (world_of' ts ht σ))
               = asserts_world (Unmarshal_map (body_of' ts ht σ)).1
                   (AssertContentFields ht) (world_of' ts ht σ)).
  { destruct (AssertContentFields ht) as [fields|] eqn:E.
    - destruct (field_checks_run Unmarshal_map ht (body_of' ts ht σ)
                  (world_of' ts ht σ) fields E) as [_ ->].
      apply field_loop_world.
    - by destruct (field_checks_none Unmarshal_map ht (body_of' ts ht σ)
                     (world_of' ts ht σ) E) as [_ ->]. }
  rewrite Hf, Hw, Hb. unfold after_hooks.
  by rewrite world_bind, !call_hook_world.
Qed.

(** X10: a case that sets both skip flags runs as it would in the same
    suite without suite-level hooks: same log, same final state. *)
Theorem skip_flags_hide_suite_hooks ts ht σ :
  SkipBeforeTestFunc ht = true -> SkipAfterTestFunc ht = true ->
  Run' ts ht σ = Run' (without_suite_hooks ts) ht σ.
Proof.
  intros Hb Ha. unfold RunHandlerTest. rewrite Hb, Ha. cbn [negb].
  unfold without_suite_hooks; cbn [BeforeTestFunc AfterTestFunc Route Method
                                   HandlerFunc].
  by destruct (BeforeTestFunc ts), (AfterTestFunc ts).
Qed.
End RunMore.

(** ** The suite loop *)

Section SuiteLoop.
Context {World : Type}.
Variable ReadAll : string -> string * option string.
Variable Unmarshal_Error : string -> ApiError * option string.
Variable Unmarshal_map : string -> gmap string JValue * option string.

Abbreviation Run1 := (RunHandlerTest ReadAll Unmarshal_Error Unmarshal_map).
Abbreviation RunAll := (RunHandlerTests ReadAll Unmarshal_Error Unmarshal_map).

Implicit Types (ts : TestSuite World) (ht : HandlerTest World) (σ : World)
  (tests : list (HandlerTest World)).

Lemma RunHandlerTests_cons ts ht tests σ :
  RunAll ts (ht :: tests) σ
    = ((Name ht, trace (Run1 ts ht σ)) :: (RunAll ts tests (world (Run1 ts ht σ))).1,
       (RunAll ts tests (world (Run1 ts ht σ))).2).
Proof.
  cbn [RunHandlerTests].
  by destruct (RunHandlerTests _ _ _ ts tests (world (Run1 ts ht σ))).
Qed.


(** X12: running two lists of cases one after the other is running their
    concatenation: the second list starts in the state the first left, and
    the sub-tests are those of the first followed by those of the
    second. *)
Theorem suite_loop_app ts tests tests' σ :
  RunHandlerTests ReadAll Unmarshal_Error Unmarshal_map ts (tests ++ tests') σ
    = ((RunAll ts tests σ).1 ++ (RunAll ts tests' (RunAll ts tests σ).2).1,
       (RunAll ts tests' (RunAll ts tests σ).2).2).
Proof.
  revert σ; induction tests as [|ht tests IH]; intros σ.
  - simpl. by destruct (RunHandlerTests _ _ _ ts tests' σ).
  - cbn [app]. rewrite !RunHandlerTests_cons, IH. reflexivity.
Qed.

(** X13: with a pure handler and pure hooks and assertion functions, the
    cases of a suite are independent: every sub-test holds the log its case
    gives when run alone from the initial state, and the loop leaves that
    state unchanged. *)
Theorem pure_cases_are_independent ts tests σ :
  pure_suite ts ->
  (forall ht, ht ∈ tests -> pure_case ht) ->
  RunAll ts tests σ
    = (map (fun ht => (Name ht, trace (Run1 ts ht σ))) tests, σ).
Proof.
  intros Hts. induction tests as [|ht tests IH]; intros Hpure; [done|].
  rewrite RunHandlerTests_cons.
  destruct (pure_run_worlds ReadAll Unmarshal_Error Unmarshal_map ts ht σ Hts)
    as (_ & _ & _ & ->); [apply Hpure; by left|].
  rewrite IH; [done|]. intros ht' Hin. apply Hpure. by right.
Qed.
End SuiteLoop.

(** ** The further properties on the sample suites *)

(** X4 on the [create] case: two entries, two calls. *)
Lemma one_assert_call_per_field_witness :
  AssertContentFields create_case
    = Some [("missing_field", AssertNotEmptyFunc); ("id", AssertNotEmptyFunc)]
  /\ assert_calls (trace (sample_run widgets create_case)) = 2%nat.
Proof.
  split; [reflexivity|].
  exact (one_assert_call_per_field buffer_ReadAll sample_Unmarshal_Error
           sample_Unmarshal_map widgets create_case 0%nat _ eq_refl).
Defined.

(** X5 on the [not found] case. *)
Lemma nil_field_map_no_calls_witness :
  AssertContentFields not_found_case = None
  /\ assert_calls (trace (sample_run lookup not_found_case)) = 0%nat.
Proof.
  split; [reflexivity|].
  exact (proj1 (nil_field_map_no_calls buffer_ReadAll sample_Unmarshal_Error
                  sample_Unmarshal_map lookup not_found_case 0%nat eq_refl)).
Defined.

(** X6 on the [broken] suite: an empty, non-nil field map and a body that
    is not JSON. *)
Lemma field_map_decode_failure_fails_witness :
  AssertContentFields empty_fields_case = Some []
  /\ (sample_Unmarshal_map (sample_body broken empty_fields_case)).2
     = Some syntax_error
  /\ Failed (trace (sample_run broken empty_fields_case)) = true.
Proof.
  assert (Hdec : (sample_Unmarshal_map (sample_body broken empty_fields_case)).2
                 = Some syntax_error) by (vm_compute; reflexivity).
  split; [reflexivity|]. split; [exact Hdec|].
  exact (proj2 (field_map_decode_failure_fails buffer_ReadAll sample_Unmarshal_Error
                  sample_Unmarshal_map broken empty_fields_case 0%nat _ _
                  eq_refl Hdec)).
Defined.

(** X7 on the [not found] case: the run passes; status and code are 404. *)
Lemma passing_error_case_codes_agree_witness :
  (WantErr not_found_case = true \/ WantErrMessage not_found_case <> EmptyString)
  /\ Failed (trace (sample_run lookup not_found_case)) = false
  /\ ErrCode (sample_Unmarshal_Error (sample_body lookup not_found_case)).1
     = StatusCode (got_resp buffer_ReadAll lookup not_found_case 0%nat).
Proof.
  assert (Htrig : WantErr not_found_case = true
                  \/ WantErrMessage not_found_case <> EmptyString) by (by left).
  assert (HF : Failed (trace (sample_run lookup not_found_case)) = false)
    by (vm_compute; reflexivity).
  split; [exact Htrig|]. split; [exact HF|].
  exact (proj2 (passing_error_case_codes_agree buffer_ReadAll sample_Unmarshal_Error
                  sample_Unmarshal_map lookup not_found_case 0%nat Htrig HF)).
Defined.


(** X10 on the [widgets] suite, whose two hooks the [isolated] case skips. *)
Lemma skip_flags_hide_suite_hooks_witness :
  SkipBeforeTestFunc isolated_case = true /\ SkipAfterTestFunc isolated_case = true
  /\ sample_run widgets isolated_case
     = sample_run (without_suite_hooks widgets) isolated_case.
Proof.
  do 2 (split; [reflexivity|]).
  exact (skip_flags_hide_suite_hooks buffer_ReadAll sample_Unmarshal_Error
           sample_Unmarshal_map widgets isolated_case 0%nat eq_refl eq_refl).
Defined.

Lemma not_found_case_pure : pure_case not_found_case.
Proof.
  split; [intros g Hg; discriminate Hg|]. split; [intros g Hg; discriminate Hg|].
  intros fields Hf. discriminate Hf.
Qed.

(** X13 on [ok_suite] with two pure cases. *)
Lemma pure_cases_are_independent_witness :
  pure_suite ok_suite
  /\ (forall ht, ht ∈ [fields_case; not_found_case] -> pure_case ht)
  /\ RunHandlerTests buffer_ReadAll sample_Unmarshal_Error sample_Unmarshal_map
       ok_suite [fields_case; not_found_case] 0%nat
     = ([(Name fields_case, trace (sample_run ok_suite fields_case));
         (Name not_found_case, trace (sample_run ok_suite not_found_case))],
        0%nat).
Proof.
  assert (Hpure : forall ht, ht ∈ [fields_case; not_found_case] -> pure_case ht).
  { intros ht Hin. apply elem_of_cons in Hin as [->|Hin];
      [exact fields_case_pure|].
    apply list_elem_of_singleton in Hin as ->. exact not_found_case_pure. }
  split; [exact ok_suite_pure|]. split; [exact Hpure|].
  exact (pure_cases_are_independent buffer_ReadAll sample_Unmarshal_Error
           sample_Unmarshal_map ok_suite [fields_case; not_found_case] 0%nat
           ok_suite_pure Hpure).
Defined.
